(** * Atlas web: the activity log route (src/routes/_main/activity.tsx)

    A shallow embedding of the formatting and pagination logic of the
    activity page: [formatTimeAgo], [formatTriggerReason],
    [getActivityDetails], the BACKUP_OPERATION filter, the [hasNextPage] /
    [hasPrevPage] flags and the three rendering states of [ActivityPage].

    TypeScript types are erased at run time and [Activity.metadata] is a
    loosely typed JSON object, so metadata fields are modelled as
    JavaScript values with the language's coercions written out: truthiness
    for [||] and [!], ToString for template literals, ToNumber for [-]. *)

From Stdlib Require Import ZArith String Ascii List Bool Lia DecimalString.
From stdpp Require Import base option list gmap strings.

Local Open Scope Z_scope.
Local Open Scope string_scope.

(** ** JavaScript values *)

Module JS.

(** Numbers.  The counts and millisecond instants this page handles are
    integers; [Num z] is the integer-valued double [z] and [NaN] the
    not-a-number value produced by [undefined - undefined], by an invalid
    [Date], and so on.  The operations below compute on [Num] with
    integer arithmetic and print it in decimal digits.  That is what the
    double arithmetic and Number::toString of the code do as long as the
    operands and the result are safe integers ([safe_integer], the range
    of [Number.isSafeInteger]); beyond it doubles round and, from 1e21
    on, are printed in exponent notation, so every statement about a
    count taken from the metadata carries that range as a hypothesis.
    The instants of a [Date] lie within 8.64e15 of the epoch. *)
Inductive number : Type :=
  | Num (z : Z)
  | NaN.

(** [Number.isSafeInteger]: an integer of magnitude at most 2^53 - 1. *)
Definition safe_integer (z : Z) : Prop := Z.abs z <= 2 ^ 53 - 1.

(** A number on which the model's arithmetic and printing are the
    code's. *)
Definition exact_number (n : number) : Prop :=
  match n with
  | Num z => safe_integer z
  | NaN => True
  end.

(** The values a metadata field read can produce: [JUndefined] is what a
    read of an absent property gives; then the JSON primitives; and
    [JObject text] is a nested object or array.  Its conversion to a
    primitive either gives a text, [Some] of it ("[object Object]" for a
    plain object, the joined elements for an array), or throws, [None]:
    that is the case of an object with an own property [toString], which
    in parsed JSON is never a function, and of an array that holds such
    an object.  [valueOf] of an object or array never gives a primitive,
    so the conversions to string and to number both go through this
    text. *)
Inductive value : Type :=
  | JUndefined
  | JNull
  | JBool (b : bool)
  | JNum (n : number)
  | JStr (s : string)
  | JObject (text : option string).

(** A value that the model converts and prints as the code does: any
    value but a number outside the safe integers. *)
Definition exact_value (v : value) : Prop :=
  match v with
  | JNum n => exact_number n
  | _ => True
  end.

(** Abrupt completion: the exceptions of the modelled code are type
    errors. *)
Inductive exn : Type :=
  | TypeError (msg : string).

(** The completion of a JavaScript computation: a value or a throw. *)
Inductive completion (A : Type) : Type :=
  | Normal (a : A)
  | Throw (e : exn).
Arguments Normal {A} a.
Arguments Throw {A} e.

Definition bind {A B} (c : completion A) (k : A -> completion B) : completion B :=
  match c with
  | Normal a => k a
  | Throw e => Throw e
  end.

(** [try { body } catch { handler }] with a handler that ignores the
    exception (the source's [catch] has no binding). *)
Definition try_catch {A} (body : completion A) (handler : A) : completion A :=
  match body with
  | Normal a => Normal a
  | Throw _ => Normal handler
  end.

(** ToBoolean. *)
Definition truthy (v : value) : bool :=
  match v with
  | JUndefined | JNull => false
  | JBool b => b
  | JNum (Num z) => negb (Z.eqb z 0)
  | JNum NaN => false
  | JStr s => negb (String.eqb s "")
  | JObject _ => true
  end.

(** [a || b]. *)
Definition or_else (a b : value) : value := if truthy a then a else b.

(** [a === b] against a string literal. *)
Definition strict_eq_str (v : value) (lit : string) : bool :=
  match v with
  | JStr s => String.eqb s lit
  | _ => false
  end.

(** The decimal digits of an integer, with a minus sign when negative:
    Number::toString of a safe integer. *)
Definition string_of_Z (z : Z) : string := NilZero.string_of_int (Z.to_int z).

(** Number::toString on [exact_number]s. *)
Definition number_to_string (n : number) : string :=
  match n with
  | Num z => string_of_Z z
  | NaN => "NaN"
  end.

(** ToString, as applied by a template literal substitution; it throws
    on an object or array whose conversion to a primitive throws. *)
Definition to_string (v : value) : completion string :=
  match v with
  | JUndefined => Normal "undefined"
  | JNull => Normal "null"
  | JBool true => Normal "true"
  | JBool false => Normal "false"
  | JNum n => Normal (number_to_string n)
  | JStr s => Normal s
  | JObject (Some text) => Normal text
  | JObject None => Throw (TypeError "Cannot convert object to primitive value")
  end.

(** Number arithmetic: [x - y], [Math.abs], [Math.floor(x / d)] for a
    positive integer constant [d], and [x < k]; the code's whenever the
    operands and the result are [exact_number]s. *)
Definition sub (x y : number) : number :=
  match x, y with
  | Num a, Num b => Num (a - b)
  | _, _ => NaN
  end.

Definition abs (x : number) : number :=
  match x with
  | Num a => Num (Z.abs a)
  | NaN => NaN
  end.

Definition floor_div (x : number) (d : Z) : number :=
  match x with
  | Num a => Num (a / d)
  | NaN => NaN
  end.

Definition lt (x : number) (k : Z) : bool :=
  match x with
  | Num a => Z.ltb a k
  | NaN => false
  end.

(** ** String.prototype methods used by the page *)

(** [s.includes(c)] for a one-character needle. *)
Fixpoint includes_char (c : ascii) (s : string) : bool :=
  match s with
  | EmptyString => false
  | String x s' => Ascii.eqb x c || includes_char c s'
  end.

(** [s.replace(/c/g, d)] for single characters [c] and [d]. *)
Fixpoint replace_all_char (c d : ascii) (s : string) : string :=
  match s with
  | EmptyString => EmptyString
  | String x s' =>
      String (if Ascii.eqb x c then d else x) (replace_all_char c d s')
  end.

(** [s.replace(pat, rep)] with a string pattern: only the first occurrence
    is replaced.  None of the replacement texts of the page contains [$]. *)
Fixpoint drop_chars (n : nat) (s : string) : string :=
  match n, s with
  | S n', String _ s' => drop_chars n' s'
  | _, _ => s
  end.

Fixpoint replace_first (pat rep s : string) : string :=
  if String.prefix pat s then rep ++ drop_chars (String.length pat) s
  else match s with
       | EmptyString => EmptyString
       | String x s' => String x (replace_first pat rep s')
       end.

(** The character class [\w] of a regular expression without the unicode
    flag: ASCII letters, digits and underscore. *)
Definition is_word_char (c : ascii) : bool :=
  let n := N_of_ascii c in
  ((65 <=? n) && (n <=? 90) || (97 <=? n) && (n <=? 122)
   || (48 <=? n) && (n <=? 57) || (n =? 95))%N.

(** [l.toUpperCase()] on one character matched by [\w]. *)
Definition to_upper (c : ascii) : ascii :=
  let n := N_of_ascii c in
  if ((97 <=? n) && (n <=? 122))%N then ascii_of_N (n - 32) else c.

(** [s.replace(/\b\w/g, (l) => l.toUpperCase())]: a match is a word
    character with a word boundary before it, that is, one at the start of
    the string or right after a character that is not a word character.
    [prev] says whether the previous character was a word character. *)
Fixpoint upper_word_starts (prev : bool) (s : string) : string :=
  match s with
  | EmptyString => EmptyString
  | String c s' =>
      String (if is_word_char c && negb prev then to_upper c else c)
             (upper_word_starts (is_word_char c) s')
  end.

Definition capitalize_words (s : string) : string := upper_word_starts false s.

End JS.

Import JS.

(** ** The data model *)

(** [Activity] of atlas-api.schemas, as this page reads it.  [metadata] is
    [None] when the property is absent, null or otherwise falsy (the
    [!activity.metadata] test), and otherwise the JSON object's fields; a
    read of a field that is not in the map gives [undefined].  A truthy
    primitive in its place has none of the fields read here and behaves
    as the empty map. *)
Record Activity : Type := mkActivity {
  id : string;
  activityType : string;
  metadata : option (gmap string value);
  timestamp : string;
  groupName : option string;
  triggeredBy : string;
  description : string;
}.

Definition field (m : gmap string value) (k : string) : value :=
  default JUndefined (m !! k).

(** The object literal returned by [getActivityDetails].  The first return
    of the source has no [badge] property: reading it gives [undefined]. *)
Record ActivityDetails : Type := mkDetails {
  summary : value;
  details : value;
  badge : value;
}.

Definition empty_details : ActivityDetails :=
  {| summary := JStr ""; details := JStr ""; badge := JStr "" |}.

Definition ITEMS_PER_PAGE : Z := 20.

(** ** The functions of the page *)

(** [formatTriggerReason].  Its parameter is declared [string], but the
    caller passes [metadata.trigger_reason] unchecked: a falsy value takes
    the early return, a string is formatted, and any other value has no
    [replace] method, so the call throws. *)
Definition apply_overrides (formatted : string) : string :=
  replace_first "Scale Down Threshold" "Low utilization"
    (replace_first "Scale Up Threshold" "High utilization"
      (replace_first "Maximum Servers Enforcement" "Maintaining maximum servers"
        (replace_first "Minimum Servers Enforcement" "Maintaining minimum servers"
          formatted))).

Definition formatTriggerReason (reason : value) : completion string :=
  if negb (truthy reason) then Normal ""
  else match reason with
       | JStr s =>
           let formatted := capitalize_words (replace_all_char "_" " " s) in
           Normal (apply_overrides formatted)
       | _ => Throw (TypeError "reason.replace is not a function")
       end.

Section Runtime.

(** Two parts of the JavaScript runtime are taken as given: StringToNumber
    (the numeric value of a string operand of [-]) and the parser behind
    [new Date(string).getTime()], which gives the instant in milliseconds
    or [NaN] for an invalid date. *)
Variable StringToNumber : string -> number.
Variable Date_parse : string -> number.

(** ToNumber; an object or array is first converted to its text, which
    throws when that conversion does. *)
Definition to_number (v : value) : completion number :=
  match v with
  | JUndefined => Normal NaN
  | JNull => Normal (Num 0)
  | JBool true => Normal (Num 1)
  | JBool false => Normal (Num 0)
  | JNum n => Normal n
  | JStr s => Normal (StringToNumber s)
  | JObject (Some text) => Normal (StringToNumber text)
  | JObject None => Throw (TypeError "Cannot convert object to primitive value")
  end.

(** The argument of [new Date(...)] in [formatTimeAgo]. *)
Definition date_argument (timestamp : string) : string :=
  timestamp ++ (if includes_char "Z" timestamp then "" else "Z").

(** [formatTimeAgo]; [now] is [new Date().getTime()]. *)
Definition formatTimeAgo (now : Z) (timestamp : string) : string :=
  let activityTime := Date_parse (date_argument timestamp) in
  let diffMs := sub (Num now) activityTime in
  let diffMinutes := floor_div diffMs (1000 * 60) in
  if lt diffMinutes 1 then "now"
  else if lt diffMinutes 60 then number_to_string diffMinutes ++ "m"
  else
    let diffHours := floor_div diffMinutes 60 in
    if lt diffHours 24 then number_to_string diffHours ++ "h"
    else
      let diffDays := floor_div diffHours 24 in
      number_to_string diffDays ++ "d".

(** The [try] block of [getActivityDetails]: the [switch] on
    [activity.activityType].  The conversions are made in the order the
    code makes them: the operands of [-] left to right where the
    difference is computed, then the substitutions of each template
    literal as the object literal is built. *)
Definition details_switch (type : string) (metadata : gmap string value)
  : completion ActivityDetails :=
  if String.eqb type "SCALING_OPERATION" then
    let beforeCount := or_else (field metadata "servers_before") (JNum (Num 0)) in
    let afterCount := or_else (field metadata "servers_after") (JNum (Num 0)) in
    bind (to_number afterCount) (fun after_number =>
    bind (to_number beforeCount) (fun before_number =>
    let diff := sub after_number before_number in
    let direction :=
      if strict_eq_str (field metadata "direction") "up" then "+" else "-" in
    bind (to_string beforeCount) (fun before_text =>
    bind (to_string afterCount) (fun after_text =>
    bind (formatTriggerReason (field metadata "trigger_reason")) (fun reason =>
    Normal
      {| summary := JStr (before_text ++ " → " ++ after_text ++ " servers");
         details := or_else (JStr reason) (JStr "Auto-scaling triggered");
         badge := JStr (direction ++ number_to_string (abs diff)) |})))))
  else if String.eqb type "PLAYER_SURGE" then
    bind (to_number (field metadata "newPlayerCount")) (fun new_number =>
    bind (to_number (field metadata "previousPlayerCount")) (fun previous_number =>
    let playerDiff := sub new_number previous_number in
    bind (to_string (field metadata "previousPlayerCount")) (fun previous_text =>
    bind (to_string (field metadata "newPlayerCount")) (fun new_text =>
    bind (to_string (or_else (field metadata "timeWindow") (JStr "5m"))) (fun window =>
    Normal
      {| summary := JStr (previous_text ++ " → " ++ new_text ++ " players");
         details := JStr ("Surge detected in " ++ window);
         badge := JStr ("+" ++ number_to_string playerDiff) |})))))
  else if String.eqb type "PLAYER_DROP" then
    bind (to_number (field metadata "previousPlayerCount")) (fun previous_number =>
    bind (to_number (field metadata "newPlayerCount")) (fun new_number =>
    let dropDiff := sub previous_number new_number in
    bind (to_string (field metadata "previousPlayerCount")) (fun previous_text =>
    bind (to_string (field metadata "newPlayerCount")) (fun new_text =>
    bind (to_string (or_else (field metadata "timeWindow") (JStr "5m"))) (fun window =>
    Normal
      {| summary := JStr (previous_text ++ " → " ++ new_text ++ " players");
         details := JStr ("Drop detected in " ++ window);
         badge := JStr ("-" ++ number_to_string dropDiff) |})))))
  else if String.eqb type "CAPACITY_REACHED" then
    bind (to_string (field metadata "newPlayerCount")) (fun new_text =>
    bind (to_string (field metadata "capacity")) (fun capacity_text =>
    Normal
      {| summary := JStr (new_text ++ "/" ++ capacity_text ++ " players");
         details := JStr "Server at maximum capacity";
         badge := JStr "FULL" |}))
  else if String.eqb type "SERVER_RESTART" then
    bind (if truthy (field metadata "previousUptime")
          then bind (to_string (field metadata "previousUptime")) (fun uptime =>
               Normal (JStr ("Uptime: " ++ uptime)))
          else Normal (JStr "")) (fun uptime_line =>
    Normal
      {| summary := or_else (field metadata "reason") (JStr "Manual restart");
         details := uptime_line;
         badge := JStr "RESTART" |})
  else if String.eqb type "ATLAS_LIFECYCLE" then
    Normal
      {| summary := JStr "System event";
         details := JStr "Atlas lifecycle change";
         badge := JStr "SYSTEM" |}
  else Normal empty_details.

(** [getActivityDetails]: the early return for missing metadata, then the
    [try] block with a [catch] that returns the all-empty object. *)
Definition getActivityDetails (activity : Activity) : completion ActivityDetails :=
  match metadata activity with
  | None => Normal {| summary := JStr ""; details := JStr ""; badge := JUndefined |}
  | Some metadata =>
      try_catch (details_switch (activityType activity) metadata) empty_details
  end.

End Runtime.

(** ** The page component *)

Inductive BadgeVariant : Type := success | destructive | secondary.

(** One rendered activity row: the React key, the badge (when
    [details.badge] is truthy) with its variant, the relative age, and the
    two text lines with their fallbacks. *)
Record Row : Type := mkRow {
  row_key : string;
  row_activity : Activity;
  row_badge : option (string * BadgeVariant);
  row_time : string;
  row_summary : value;
  row_details : value;
}.

(** The three states of the list: ten skeleton items while the query is
    pending, the zero-results message, or the rows. *)
Inductive Body : Type :=
  | Skeletons (count : nat)
  | NoActivityFound
  | Rows (rows : list Row).

(** The pagination bar: the page label and the [disabled] attribute of the
    Previous and Next buttons. *)
Record Pagination : Type := mkPagination {
  page_label : Z;
  previous_disabled : bool;
  next_disabled : bool;
}.

Record View : Type := mkView {
  view_body : Body;
  view_pagination : option Pagination;
}.

(** The input of the [getRecentActivities] query for a page. *)
Record QueryInput : Type := mkQuery { limit : Z; offset : Z }.

Definition query_input (currentPage : Z) : QueryInput :=
  {| limit := ITEMS_PER_PAGE; offset := (currentPage - 1) * ITEMS_PER_PAGE |}.

(** [(activitiesData?.data || []).filter(...)]; [None] is the query result
    before any data has arrived. *)
Definition is_backup (activity : Activity) : bool :=
  String.eqb (activityType activity) "BACKUP_OPERATION".

Definition visible_activities (activitiesData : option (list Activity)) : list Activity :=
  List.filter (fun activity => negb (is_backup activity)) (default [] activitiesData).

Definition hasNextPage (activitiesData : option (list Activity)) : bool :=
  Z.eqb (Z.of_nat (List.length (visible_activities activitiesData))) ITEMS_PER_PAGE.

Definition hasPrevPage (currentPage : Z) : bool := Z.ltb 1 currentPage.

Definition badge_variant (text : string) : BadgeVariant :=
  if includes_char "+" text || String.eqb text "SUCCESS" || String.eqb text "SURGE"
  then success
  else if includes_char "-" text || String.eqb text "FAILED" || String.eqb text "FULL"
  then destructive
  else secondary.

Fixpoint map_completion {A B} (f : A -> completion B) (l : list A) : completion (list B) :=
  match l with
  | [] => Normal []
  | a :: l' => bind (f a) (fun b => bind (map_completion f l') (fun bs => Normal (b :: bs)))
  end.

Section Component.

Variable StringToNumber : string -> number.
Variable Date_parse : string -> number.

(** [details.badge && <Badge variant={...}>]: no badge for a falsy
    [details.badge]; otherwise the variant is computed with
    [details.badge.includes], a method only strings have. *)
Definition render_badge (b : value) : completion (option (string * BadgeVariant)) :=
  if truthy b then
    match b with
    | JStr text => Normal (Some (text, badge_variant text))
    | _ => Throw (TypeError "details.badge.includes is not a function")
    end
  else Normal None.

(** The callback of [activities.map]. *)
Definition render_row (now : Z) (activity : Activity) : completion Row :=
  bind (getActivityDetails StringToNumber activity) (fun d =>
  bind (render_badge (badge d)) (fun b =>
  Normal
    {| row_key := id activity;
       row_activity := activity;
       row_badge := b;
       row_time := formatTimeAgo Date_parse now (timestamp activity);
       row_summary := or_else (summary d) (JStr (description activity));
       row_details :=
         or_else (details d) (JStr ("Triggered by " ++ triggeredBy activity)) |})).

(** One render pass of [ActivityPage] from its state ([currentPage]) and
    the state of the activities query. *)
Definition ActivityPage (now : Z) (currentPage : Z) (isPending : bool)
    (activitiesData : option (list Activity)) : completion View :=
  let activities := visible_activities activitiesData in
  bind
    (if isPending then Normal (Skeletons 10)
     else if Nat.eqb (List.length activities) 0 then Normal NoActivityFound
     else bind (map_completion (render_row now) activities)
               (fun rows => Normal (Rows rows)))
    (fun body =>
  Normal
    {| view_body := body;
       view_pagination :=
         if negb isPending && Nat.ltb 0 (List.length activities)
         then Some {| page_label := currentPage;
                      previous_disabled := negb (hasPrevPage currentPage);
                      next_disabled := negb (hasNextPage activitiesData) |}
         else None |}).

End Component.

(** The click handlers: a button that is not rendered or is disabled fires
    nothing; otherwise [setCurrentPage(currentPage -/+ 1)]. *)
Inductive Click : Type := ClickPrevious | ClickNext.

Definition on_click (view : View) (currentPage : Z) (c : Click) : Z :=
  match view_pagination view with
  | None => currentPage
  | Some bar =>
      match c with
      | ClickPrevious =>
          if previous_disabled bar then currentPage else currentPage - 1
      | ClickNext =>
          if next_disabled bar then currentPage else currentPage + 1
      end
  end.

(** ** Sample inputs *)

(** Stand-ins for the two runtime functions when a sample is evaluated:
    no sample has a string operand of [-], and the sample clock parses
    every timestamp to the epoch. *)
Definition sample_StringToNumber : string -> number := fun _ => NaN.
Definition sample_Date_parse : string -> number := fun _ => Num 0.

Definition sample_activity (type : string) (fields : list (string * value)) : Activity :=
  {| id := "act-1"; activityType := type; metadata := Some (list_to_map fields);
     timestamp := "2024-05-01T12:00:00"; groupName := Some "lobby";
     triggeredBy := "scaler"; description := "Activity" |}.

(** The scaling example of the specification. *)
Definition scaling_3_to_5 : Activity :=
  sample_activity "SCALING_OPERATION"
    [("servers_before", JNum (Num 3)); ("servers_after", JNum (Num 5));
     ("direction", JStr "up")].

(** A scale-down record whose counts went up. *)
Definition scaling_down_3_to_5 : Activity :=
  sample_activity "SCALING_OPERATION"
    [("servers_before", JNum (Num 3)); ("servers_after", JNum (Num 5));
     ("direction", JStr "down"); ("trigger_reason", JStr "scale_down_threshold")].

(** A scaling record whose trigger reason is a number. *)
Definition scaling_numeric_reason : Activity :=
  sample_activity "SCALING_OPERATION"
    [("servers_before", JNum (Num 3)); ("servers_after", JNum (Num 5));
     ("direction", JStr "up"); ("trigger_reason", JNum (Num 7))].

(** A player surge whose metadata object has no count fields. *)
Definition surge_without_counts : Activity := sample_activity "PLAYER_SURGE" [].

(** A full page of twenty entries fetched from the API, one of which (the
    last) is a backup operation. *)
Definition scaling_entry : Activity :=
  {| id := "a"; activityType := "SCALING_OPERATION"; metadata := None;
     timestamp := "2024-05-01T12:00:00"; groupName := None;
     triggeredBy := "scaler"; description := "Scaled" |}.

Definition backup_entry : Activity :=
  {| id := "b"; activityType := "BACKUP_OPERATION"; metadata := None;
     timestamp := "2024-05-01T12:00:00"; groupName := None;
     triggeredBy := "system"; description := "Backup" |}.

Definition full_page_with_backup : list Activity :=
  repeat scaling_entry 19 ++ [backup_entry].

(** ** Notions of the specification *)

(** A time-zone designator at the end of a timestamp, as ISO 8601 writes
    it: the UTC marker [Z], or a numeric offset such as [+02:00]. *)
Definition is_digit (c : ascii) : bool :=
  let n := N_of_ascii c in ((48 <=? n) && (n <=? 57))%N.

Definition is_sign (c : ascii) : bool := Ascii.eqb c "+" || Ascii.eqb c "-".

Fixpoint ends_with_offset (s : string) : bool :=
  match s with
  | EmptyString => false
  | String c0 s' =>
      match s' with
      | String h1 (String h2 (String c (String m1 (String m2 EmptyString)))) =>
          is_sign c0 && is_digit h1 && is_digit h2 && Ascii.eqb c ":"
          && is_digit m1 && is_digit m2
      | _ => ends_with_offset s'
      end
  end.

Fixpoint ends_with_char (c : ascii) (s : string) : bool :=
  match s with
  | EmptyString => false
  | String x EmptyString => Ascii.eqb x c
  | String _ s' => ends_with_char c s'
  end.

Definition carries_time_zone (timestamp : string) : bool :=
  ends_with_char "Z" timestamp || ends_with_offset timestamp.

(** Whether the character before position [n] of [s] is a word character
    (false at the start of the string). *)
Definition word_char_before (s : string) (n : nat) : bool :=
  match n with
  | O => false
  | S k => match String.get k s with
           | Some p => is_word_char p
           | None => false
           end
  end.

(** The text [formatTriggerReason] produces for a non-empty string. *)
Definition formatted_reason (r : string) : string :=
  apply_overrides (capitalize_words (replace_all_char "_" " " r)).

(** The [trigger_reason] values the declared parameter type of
    [formatTriggerReason] allows for: a string, or a falsy value such as
    the [undefined] of an absent field. *)
Definition reason_text (v : value) (r : string) : Prop :=
  v = JStr r \/ (truthy v = false /\ r = "").

(** A reason code in the usual machine form: letters, digits and
    underscores only. *)
Fixpoint all_word_chars (s : string) : bool :=
  match s with
  | EmptyString => true
  | String c s' => is_word_char c && all_word_chars s'
  end.

(** Position [n] starts a word of a text whose words are separated by
    spaces: it is the first position, or the one after a space. *)
Definition word_start (s : string) (n : nat) : bool :=
  match n with
  | O => true
  | S k => match String.get k s with
           | Some p => Ascii.eqb p " "
           | None => false
           end
  end.


(** What [s.replace(pat, rep)] does with a string pattern, said without
    the scan: when [pat] occurs in [s], its leftmost occurrence (the one
    with the shortest text before it) is replaced by [rep] and the text
    before and after it is kept; when it does not occur, [s] is left as
    it is. *)
Definition first_replaced (pat rep s out : string) : Prop :=
  (exists pre post,
      s = pre ++ pat ++ post /\
      (forall pre' post', s = pre' ++ pat ++ post' ->
                          (String.length pre <= String.length pre')%nat) /\
      out = pre ++ rep ++ post) \/
  ((forall pre' post', s <> pre' ++ pat ++ post') /\ out = s).

(** A value the code prints as the text [t]: the conversion to string
    gives [t], and the value is one the model prints as the code does. *)
Definition shown_text (v : value) (t : string) : Prop :=
  exact_value v /\ to_string v = Normal t.

(** The time window named in the details of a surge or a drop:
    [metadata.timeWindow || "5m"], printed. *)
Definition window_text (timeWindow : value) (w : string) : Prop :=
  (truthy timeWindow = false /\ w = "5m") \/
  (truthy timeWindow = true /\ shown_text timeWindow w).

(** A page that holds only a backup operation. *)
Definition backup_only_page : list Activity := [backup_entry].

(** ** The rest of the page *)

(** The icon components [getActivityIcon] chooses from; [Dot] is the
    [div] of the default case. *)
Inductive Icon : Type :=
  | TrendingUp | TrendingDown | Users | UserMinus
  | AlertTriangle | RotateCcw | Power | Dot.

(** [activity.metadata?.direction]. *)
Definition metadata_direction (activity : Activity) : value :=
  match metadata activity with
  | None => JUndefined
  | Some m => field m "direction"
  end.

(** [getActivityIcon]. *)
Definition getActivityIcon (activity : Activity) : Icon :=
  let type := activityType activity in
  if String.eqb type "SCALING_OPERATION" then
    if strict_eq_str (metadata_direction activity) "up" then TrendingUp
    else TrendingDown
  else if String.eqb type "PLAYER_SURGE" then Users
  else if String.eqb type "PLAYER_DROP" then UserMinus
  else if String.eqb type "CAPACITY_REACHED" then AlertTriangle
  else if String.eqb type "SERVER_RESTART" then RotateCcw
  else if String.eqb type "ATLAS_LIFECYCLE" then Power
  else Dot.

(** A group of the [groupList] query. *)
Record Group : Type := mkGroup {
  name : string;
  displayName : string;
}.

(** [getGroupInternalName], with [groups = groupsData || []]:
    [groups.find(...)] gives the first match, and [group?.name ||
    displayName] falls back to the argument when there is no match or the
    matched group's name is empty. *)
Definition getGroupInternalName (groupsData : option (list Group))
    (display : string) : string :=
  let groups := default [] groupsData in
  let group :=
    List.find (fun g => String.eqb (displayName g) display
                        || String.eqb (name g) display) groups in
  match group with
  | Some g => if negb (String.eqb (name g) "") then name g else display
  | None => display
  end.

(** [activity.groupName ? getGroupInternalName(activity.groupName) :
    undefined]. *)
Definition internalGroupName (groupsData : option (list Group))
    (activity : Activity) : option string :=
  match groupName activity with
  | Some g =>
      if negb (String.eqb g "") then Some (getGroupInternalName groupsData g)
      else None
  | None => None
  end.

(** The row title: [activityType.replace(/_/g, " ").toLowerCase()
    .replace(/\b\w/g, (l) => l.toUpperCase())].  [toLowerCase] is taken
    from the runtime; on a text of ASCII characters it is
    [ascii_lower_case]. *)
Definition to_lower (c : ascii) : ascii :=
  let n := N_of_ascii c in
  if ((65 <=? n) && (n <=? 90))%N then ascii_of_N (n + 32) else c.

Fixpoint ascii_lower_case (s : string) : string :=
  match s with
  | EmptyString => EmptyString
  | String c s' => String (to_lower c) (ascii_lower_case s')
  end.

Fixpoint is_ascii_text (s : string) : bool :=
  match s with
  | EmptyString => true
  | String c s' => (N_of_ascii c <? 128)%N && is_ascii_text s'
  end.

Definition activity_title (toLowerCase : string -> string) (type : string) : string :=
  capitalize_words (toLowerCase (replace_all_char "_" " " type)).

(** The form of the activity types the API sends: upper-case letters and
    underscores. *)
Definition is_upper (c : ascii) : bool :=
  let n := N_of_ascii c in ((65 <=? n) && (n <=? 90))%N.

Fixpoint is_enum_name (s : string) : bool :=
  match s with
  | EmptyString => true
  | String c s' => (is_upper c || Ascii.eqb c "_") && is_enum_name s'
  end.

(** The title of an enum name read off its letters: an underscore
    becomes a space, a letter at the start or after an underscore is
    kept, and every other letter is put in lower case.  [start] says
    whether the next character starts a word. *)
Fixpoint enum_title (start : bool) (t : string) : string :=
  match t with
  | EmptyString => EmptyString
  | String c t' =>
      String (if Ascii.eqb c "_" then " "%char
              else if start then c else to_lower c)
             (enum_title (Ascii.eqb c "_") t')
  end.

(** The types [getActivityDetails] and [getActivityIcon] have a case for. *)
Definition is_known_type (type : string) : bool :=
  String.eqb type "SCALING_OPERATION" || String.eqb type "PLAYER_SURGE"
  || String.eqb type "PLAYER_DROP" || String.eqb type "CAPACITY_REACHED"
  || String.eqb type "SERVER_RESTART" || String.eqb type "ATLAS_LIFECYCLE".

(** Sample inputs for the properties below. *)
Definition sample_groups : list Group :=
  [ {| name := "lobby"; displayName := "Lobby" |};
    {| name := "survival"; displayName := "Survival" |} ].

Definition lifecycle_without_metadata : Activity :=
  {| id := "c"; activityType := "ATLAS_LIFECYCLE"; metadata := None;
     timestamp := "2024-05-01T12:00:00Z"; groupName := None;
     triggeredBy := "system"; description := "Atlas started" |}.

Definition drop_50_to_30 : Activity :=
  sample_activity "PLAYER_DROP"
    [("previousPlayerCount", JNum (Num 50)); ("newPlayerCount", JNum (Num 30))].

Definition restart_without_uptime : Activity :=
  sample_activity "SERVER_RESTART" [("reason", JStr "Crash recovery")].

Definition restart_with_uptime : Activity :=
  sample_activity "SERVER_RESTART"
    [("reason", JStr "Crash recovery"); ("previousUptime", JNum (Num 3600))].

Definition full_page : list Activity := repeat scaling_entry 20.

(** * Properties *)

(** ** Pagination and filtering *)

Lemma visible_not_backup (data : option (list Activity)) (a : Activity) :
  In a (visible_activities data) -> activityType a <> "BACKUP_OPERATION".
Proof.
  unfold visible_activities. intros Hin.
  apply filter_In in Hin. destruct Hin as [_ Hkeep].
  unfold is_backup in Hkeep. intros Heq. rewrite Heq in Hkeep. discriminate.
Qed.

Lemma visible_complete (data : list Activity) (a : Activity) :
  In a data -> activityType a <> "BACKUP_OPERATION" ->
  In a (visible_activities (Some data)).
Proof.
  intros Hin Hne. unfold visible_activities. simpl.
  apply filter_In. split; [exact Hin|].
  unfold is_backup. destruct (String.eqb_spec (activityType a) "BACKUP_OPERATION");
    [contradiction | reflexivity].
Qed.

(** What the flag is computed from: the filtered list. *)
Lemma hasNextPage_iff (data : option (list Activity)) :
  hasNextPage data = true <-> List.length (visible_activities data) = 20%nat.
Proof.
  unfold hasNextPage, ITEMS_PER_PAGE. rewrite Z.eqb_eq. lia.
Qed.

Lemma hasPrevPage_false_iff (currentPage : Z) :
  1 <= currentPage -> (hasPrevPage currentPage = false <-> currentPage = 1).
Proof.
  unfold hasPrevPage. rewrite Z.ltb_ge. lia.
Qed.

(** C1 (code defect).  The claim: [hasNextPage] is true exactly when the
    page as returned by the API, before the BACKUP_OPERATION filter, has
    20 entries.  The code compares the length of the filtered list with
    [ITEMS_PER_PAGE].  On a full page of 20 entries of which one is a
    backup operation, the fetched page has the page size, 19 entries stay
    visible, the flag is false and the Next button of the rendered page is
    disabled. *)
Theorem hasNextPage_full_page_with_backup :
  Z.of_nat (List.length full_page_with_backup) = ITEMS_PER_PAGE /\
  List.length (visible_activities (Some full_page_with_backup)) = 19%nat /\
  hasNextPage (Some full_page_with_backup) = false /\
  forall StringToNumber Date_parse now currentPage,
    exists view bar,
      ActivityPage StringToNumber Date_parse now currentPage false
        (Some full_page_with_backup) = Normal view /\
      view_pagination view = Some bar /\
      next_disabled bar = true.
Proof.
  split; [reflexivity|]. split; [reflexivity|]. split; [reflexivity|].
  intros S2N DP now page.
  unfold ActivityPage.
  replace (visible_activities (Some full_page_with_backup))
    with (repeat scaling_entry 19) by reflexivity.
  cbn [negb andb].
  replace (Nat.eqb (List.length (repeat scaling_entry 19)) 0) with false by reflexivity.
  replace (Nat.ltb 0 (List.length (repeat scaling_entry 19))) with true by reflexivity.
  replace (hasNextPage (Some full_page_with_backup)) with false by reflexivity.
  assert (Hrows : exists rows,
    map_completion (render_row S2N DP now) (repeat scaling_entry 19) = Normal rows).
  { generalize 19%nat. intros n. induction n as [|n [rows IH]].
    - exists []. reflexivity.
    - eexists. cbn [repeat map_completion]. rewrite IH. reflexivity. }
  destruct Hrows as [rows Hrows]. rewrite Hrows. cbn [bind].
  eexists. eexists. split; [reflexivity|]. split; reflexivity.
Qed.

(** ** The presenter *)


Lemma or_else_count (z : Z) :
  or_else (JNum (Num z)) (JNum (Num 0)) = JNum (Num z).
Proof.
  unfold or_else. simpl. destruct (Z.eqb_spec z 0) as [->|]; reflexivity.
Qed.

Lemma replace_first_nonempty (pat rep s : string) :
  rep <> "" -> s <> "" -> replace_first pat rep s <> "".
Proof.
  intros Hrep Hs. destruct s as [|c s]; [congruence|].
  cbn [replace_first]. destruct (String.prefix pat (String c s)).
  - destruct rep; [congruence | discriminate].
  - discriminate.
Qed.

Lemma replace_all_char_length (c d : ascii) (s : string) :
  String.length (replace_all_char c d s) = String.length s.
Proof. induction s; simpl; congruence. Qed.

Lemma upper_word_starts_length (prev : bool) (s : string) :
  String.length (upper_word_starts prev s) = String.length s.
Proof. revert prev. induction s; intros prev; simpl; [reflexivity | rewrite IHs; reflexivity]. Qed.

Lemma apply_overrides_nonempty (s : string) :
  s <> "" -> apply_overrides s <> "".
Proof.
  intros Hs. unfold apply_overrides.
  repeat (apply replace_first_nonempty; [discriminate|]). exact Hs.
Qed.

Lemma length_zero_empty (s : string) : String.length s = 0%nat -> s = "".
Proof. destruct s; [reflexivity | discriminate]. Qed.

Lemma formatted_reason_nonempty (r : string) :
  r <> "" -> formatted_reason r <> "".
Proof.
  intros Hr. apply apply_overrides_nonempty. intros Hempty.
  apply Hr, length_zero_empty.
  rewrite <- (replace_all_char_length "_" " " r).
  unfold capitalize_words in Hempty.
  rewrite <- (upper_word_starts_length false), Hempty. reflexivity.
Qed.

Lemma formatTriggerReason_string (r : string) :
  formatTriggerReason (JStr r) = Normal (if String.eqb r "" then "" else formatted_reason r).
Proof.
  unfold formatTriggerReason. simpl. destruct (String.eqb r ""); reflexivity.
Qed.

Lemma formatTriggerReason_falsy (v : value) :
  truthy v = false -> formatTriggerReason v = Normal "".
Proof. unfold formatTriggerReason. intros ->. reflexivity. Qed.

Lemma formatTriggerReason_throws (v : value) (e : exn) :
  formatTriggerReason v = Throw e <->
  truthy v = true /\ (forall s, v <> JStr s) /\
  e = TypeError "reason.replace is not a function".
Proof.
  unfold formatTriggerReason. split.
  - destruct (truthy v) eqn:Ht; simpl; [|discriminate].
    destruct v; try discriminate; intros H; injection H as <-;
      (split; [reflexivity | split; [intros s; discriminate | reflexivity]]).
  - intros (Ht & Hns & ->). rewrite Ht. simpl.
    destruct v; try reflexivity. exfalso. exact (Hns s eq_refl).
Qed.

(** Case analysis on the completions bound in a hypothesis. *)
Ltac bind_cases H :=
  repeat match type of H with
         | context [bind ?c _] =>
             let E := fresh "Hstep" in
             destruct c eqn:E; cbn [bind] in H; try discriminate H
         end.

Lemma to_string_throws (v : value) (e : exn) :
  to_string v = Throw e -> v = JObject None.
Proof.
  destruct v as [| |[|]|n|s|[t|]]; try discriminate. reflexivity.
Qed.

Section PresenterFacts.

Variable StringToNumber : string -> number.

Lemma to_number_throws (v : value) (e : exn) :
  to_number StringToNumber v = Throw e -> v = JObject None.
Proof.
  destruct v as [| |[|]|n|s|[t|]]; try discriminate. reflexivity.
Qed.

Lemma details_switch_scaling (m : gmap string value) :
  details_switch StringToNumber "SCALING_OPERATION" m =
  let beforeCount := or_else (field m "servers_before") (JNum (Num 0)) in
  let afterCount := or_else (field m "servers_after") (JNum (Num 0)) in
  bind (to_number StringToNumber afterCount) (fun after_number =>
  bind (to_number StringToNumber beforeCount) (fun before_number =>
  bind (to_string beforeCount) (fun before_text =>
  bind (to_string afterCount) (fun after_text =>
  bind (formatTriggerReason (field m "trigger_reason")) (fun reason =>
    Normal
      {| summary := JStr (before_text ++ " → " ++ after_text ++ " servers");
         details := or_else (JStr reason) (JStr "Auto-scaling triggered");
         badge :=
           JStr ((if strict_eq_str (field m "direction") "up" then "+" else "-")
                 ++ number_to_string (abs (sub after_number before_number))) |}))))).
Proof. reflexivity. Qed.

(** The scaling branch on counts that are safe integers. *)
Lemma details_switch_scaling_counts (m : gmap string value) (b a : Z) :
  field m "servers_before" = JNum (Num b) ->
  field m "servers_after" = JNum (Num a) ->
  safe_integer b -> safe_integer a -> safe_integer (a - b) ->
  details_switch StringToNumber "SCALING_OPERATION" m =
  bind (formatTriggerReason (field m "trigger_reason")) (fun reason =>
    Normal
      {| summary := JStr (string_of_Z b ++ " → " ++ string_of_Z a ++ " servers");
         details := or_else (JStr reason) (JStr "Auto-scaling triggered");
         badge :=
           JStr ((if strict_eq_str (field m "direction") "up" then "+" else "-")
                 ++ string_of_Z (Z.abs (a - b))) |}).
Proof.
  intros Hb Ha _ _ _.
  rewrite details_switch_scaling, Hb, Ha, !or_else_count. reflexivity.
Qed.

(** The badge the presenter returns is a string or absent, so the badge
    variant of a row can always be computed. *)
Lemma details_switch_badge (type : string) (m : gmap string value) (d : ActivityDetails) :
  details_switch StringToNumber type m = Normal d -> exists text, badge d = JStr text.
Proof.
  unfold details_switch. intros H.
  repeat match type of H with
         | context [String.eqb type ?lit] => destruct (String.eqb type lit)
         end;
    bind_cases H; injection H as <-; eexists; reflexivity.
Qed.

(** A scaling operation's badge is the sign for its direction followed
    by a number, or the empty string of the catch. *)
Lemma details_switch_scaling_badge (m : gmap string value) (d : ActivityDetails) :
  details_switch StringToNumber "SCALING_OPERATION" m = Normal d ->
  exists magnitude,
    badge d = JStr ((if strict_eq_str (field m "direction") "up" then "+" else "-")
                    ++ number_to_string magnitude).
Proof.
  rewrite details_switch_scaling. cbv zeta. intros H.
  bind_cases H. injection H as <-. eexists. reflexivity.
Qed.

Lemma getActivityDetails_normal (activity : Activity) :
  exists d, getActivityDetails StringToNumber activity = Normal d /\
            (badge d = JUndefined \/ exists text, badge d = JStr text).
Proof.
  unfold getActivityDetails. destruct (metadata activity) as [m|].
  - destruct (details_switch StringToNumber (activityType activity) m) as [d|e] eqn:Hsw.
    + exists d. split; [reflexivity|]. right. eapply details_switch_badge; eauto.
    + exists empty_details. split; [reflexivity|]. right. eexists; reflexivity.
  - eexists. split; [reflexivity|]. left. reflexivity.
Qed.

End PresenterFacts.

Lemma safe_integer_small (z : Z) : Z.abs z <= 1000000 -> safe_integer z.
Proof. unfold safe_integer. intros H. change (2 ^ 53 - 1) with 9007199254740991. lia. Qed.

Lemma formatTriggerReason_text (v : value) (r : string) :
  reason_text v r ->
  formatTriggerReason v = Normal (if String.eqb r "" then "" else formatted_reason r).
Proof.
  intros [-> | [Hf ->]].
  - apply formatTriggerReason_string.
  - rewrite formatTriggerReason_falsy by exact Hf. reflexivity.
Qed.

Lemma or_else_reason (r : string) :
  or_else (JStr (if String.eqb r "" then "" else formatted_reason r))
          (JStr "Auto-scaling triggered")
  = JStr (if String.eqb r "" then "Auto-scaling triggered" else formatted_reason r).
Proof.
  unfold or_else. destruct (String.eqb_spec r "") as [->|Hne]; [reflexivity|].
  simpl. destruct (String.eqb_spec (formatted_reason r) "") as [Hempty|_]; [|reflexivity].
  exfalso. exact (formatted_reason_nonempty r Hne Hempty).
Qed.

(** C2 (code defect).  The claim: absent metadata fields are defaulted to
    zero or the empty string, so a PLAYER_SURGE activity without
    [previousPlayerCount] and [newPlayerCount] shows counts of 0.  Only the
    scaling branch defaults its counts (with [|| 0]); the surge branch
    reads the fields as they are.  For a surge whose metadata object has no
    count fields the presenter returns, without raising, the summary
    "undefined → undefined players" and the badge "+NaN", where the scaling
    branch on the same empty metadata gives "0 → 0 servers" and "-0". *)
Theorem surge_without_counts_presented (StringToNumber : string -> number) :
  getActivityDetails StringToNumber surge_without_counts =
    Normal {| summary := JStr "undefined → undefined players";
              details := JStr "Surge detected in 5m";
              badge := JStr "+NaN" |} /\
  getActivityDetails StringToNumber (sample_activity "SCALING_OPERATION" []) =
    Normal {| summary := JStr "0 → 0 servers";
              details := JStr "Auto-scaling triggered";
              badge := JStr "-0" |}.
Proof. split; reflexivity. Qed.

(** C6, the claim as stated, fails: a SCALING_OPERATION whose metadata
    gives 3 servers before, 5 after and the direction "up", with the
    number 7 as trigger reason, is presented with an empty summary and an
    empty badge, not with "3 → 5 servers" and "+2". *)
Lemma scaling_numeric_reason_presented_empty :
  exists m,
    metadata scaling_numeric_reason = Some m /\
    activityType scaling_numeric_reason = "SCALING_OPERATION" /\
    field m "servers_before" = JNum (Num 3) /\
    field m "servers_after" = JNum (Num 5) /\
    field m "direction" = JStr "up" /\
    getActivityDetails sample_StringToNumber scaling_numeric_reason
      = Normal {| summary := JStr ""; details := JStr ""; badge := JStr "" |} /\
    getActivityDetails sample_StringToNumber scaling_numeric_reason
      <> Normal {| summary := JStr "3 → 5 servers";
                   details := JStr "Auto-scaling triggered";
                   badge := JStr "+2" |}.
Proof.
  eexists. split; [reflexivity|]. repeat (split; [reflexivity|]).
  discriminate.
Qed.

(** C6, amended.  For a SCALING_OPERATION activity whose metadata gives
    safe integers [servers_before = b] and [servers_after = a] with a
    safe difference, any [direction], and a trigger reason [r] that is a
    string or falsy (absent), the presenter returns the summary
    "b → a servers", as details the formatted reason, or "Auto-scaling
    triggered" when the reason is empty, and as badge the sign for the
    direction followed by |a - b|. *)
Theorem scaling_operation_presented (StringToNumber : string -> number)
    (activity : Activity) (m : gmap string value) (b a : Z) (r : string) :
  activityType activity = "SCALING_OPERATION" ->
  metadata activity = Some m ->
  field m "servers_before" = JNum (Num b) ->
  field m "servers_after" = JNum (Num a) ->
  safe_integer b -> safe_integer a -> safe_integer (a - b) ->
  reason_text (field m "trigger_reason") r ->
  getActivityDetails StringToNumber activity =
    Normal
      {| summary := JStr (string_of_Z b ++ " → " ++ string_of_Z a ++ " servers");
         details := JStr (if String.eqb r "" then "Auto-scaling triggered"
                          else formatted_reason r);
         badge := JStr ((if strict_eq_str (field m "direction") "up" then "+" else "-")
                        ++ string_of_Z (Z.abs (a - b))) |}.
Proof.
  intros Htype Hmeta Hb Ha Hsb Hsa Hsd Hr.
  unfold getActivityDetails.
  rewrite Hmeta, Htype, (details_switch_scaling_counts _ m b a Hb Ha Hsb Hsa Hsd).
  rewrite (formatTriggerReason_text _ _ Hr).
  cbn [bind try_catch]. rewrite or_else_reason. reflexivity.
Qed.

(** The specification's example: 3 servers before, 5 after, direction up. *)
Lemma scaling_operation_presented_witness :
  getActivityDetails sample_StringToNumber scaling_3_to_5 =
    Normal {| summary := JStr "3 → 5 servers";
              details := JStr "Auto-scaling triggered";
              badge := JStr "+2" |}.
Proof.
  etransitivity.
  - apply (scaling_operation_presented sample_StringToNumber scaling_3_to_5
             (list_to_map [("servers_before", JNum (Num 3)); ("servers_after", JNum (Num 5));
                           ("direction", JStr "up")]) 3 5 "").
    + reflexivity.
    + reflexivity.
    + reflexivity.
    + reflexivity.
    + apply safe_integer_small. simpl. lia.
    + apply safe_integer_small. simpl. lia.
    + apply safe_integer_small. simpl. lia.
    + right. split; reflexivity.
  - reflexivity.
Defined.

(** C7.  The presenter returns normally on every activity, and whenever
    its [try] block throws, the value returned is the object with
    summary, details and badge all empty. *)
Theorem getActivityDetails_catches (StringToNumber : string -> number)
    (activity : Activity) :
  (exists d, getActivityDetails StringToNumber activity = Normal d) /\
  (forall m e,
      metadata activity = Some m ->
      details_switch StringToNumber (activityType activity) m = Throw e ->
      getActivityDetails StringToNumber activity =
        Normal {| summary := JStr ""; details := JStr ""; badge := JStr "" |}).
Proof.
  split.
  - destruct (getActivityDetails_normal StringToNumber activity) as (d & Hd & _).
    exists d. exact Hd.
  - intros m e Hmeta Hthrow. unfold getActivityDetails.
    rewrite Hmeta, Hthrow. reflexivity.
Qed.

(** A scaling record whose trigger reason is the number 7: the call of
    [reason.replace] throws inside the [try] block, and the caller gets
    the all-empty object. *)
Lemma getActivityDetails_catches_witness :
  details_switch sample_StringToNumber "SCALING_OPERATION"
    (list_to_map [("servers_before", JNum (Num 3)); ("servers_after", JNum (Num 5));
                  ("direction", JStr "up"); ("trigger_reason", JNum (Num 7))])
    = Throw (TypeError "reason.replace is not a function") /\
  getActivityDetails sample_StringToNumber scaling_numeric_reason =
    Normal {| summary := JStr ""; details := JStr ""; badge := JStr "" |}.
Proof.
  split; [reflexivity|].
  apply (proj2 (getActivityDetails_catches sample_StringToNumber scaling_numeric_reason)
           (list_to_map [("servers_before", JNum (Num 3)); ("servers_after", JNum (Num 5));
                         ("direction", JStr "up"); ("trigger_reason", JNum (Num 7))])
           (TypeError "reason.replace is not a function")).
  - reflexivity.
  - reflexivity.
Defined.




(** ** Relative ages *)

Lemma append_cons (c : ascii) (s t : string) :
  String c s ++ t = String c (s ++ t).
Proof. reflexivity. Qed.

Lemma append_empty_r (s : string) : s ++ "" = s.
Proof.
  induction s as [|c s IH]; [reflexivity|].
  rewrite append_cons, IH. reflexivity.
Qed.

Lemma append_length (s t : string) :
  String.length (s ++ t) = (String.length s + String.length t)%nat.
Proof.
  induction s as [|c s IH]; [reflexivity|].
  rewrite append_cons. simpl. rewrite IH. reflexivity.
Qed.

Lemma append_char_neq (s : string) (c : ascii) : s ++ String c "" <> s.
Proof.
  intros H. apply (f_equal String.length) in H.
  rewrite append_length in H. simpl in H. lia.
Qed.

(** C3, the claim as stated, fails: a timestamp that ends in the offset
    [+02:00] carries its own time-zone information, and [formatTimeAgo]
    still appends "Z" to it before parsing. *)
Lemma date_argument_alters_offset_timestamp :
  carries_time_zone "2024-05-01T12:00:00+02:00" = true /\
  date_argument "2024-05-01T12:00:00+02:00" = "2024-05-01T12:00:00+02:00Z" /\
  date_argument "2024-05-01T12:00:00+02:00" <> "2024-05-01T12:00:00+02:00".
Proof. split; [reflexivity|]. split; [reflexivity | discriminate]. Qed.

(** C3, amended.  The string [formatTimeAgo] parses is the timestamp
    itself when the timestamp contains the letter Z somewhere, and the
    timestamp followed by "Z" otherwise; it is left as given exactly when
    it contains a Z; and the parsed instant of that string is all the
    result depends on. *)
Theorem formatTimeAgo_date_argument (Date_parse : string -> number)
    (now : Z) (timestamp : string) :
  date_argument timestamp
    = (if includes_char "Z" timestamp then timestamp else timestamp ++ "Z") /\
  (date_argument timestamp = timestamp <-> includes_char "Z" timestamp = true) /\
  (forall Date_parse' : string -> number,
      Date_parse' (date_argument timestamp) = Date_parse (date_argument timestamp) ->
      formatTimeAgo Date_parse' now timestamp = formatTimeAgo Date_parse now timestamp).
Proof.
  unfold formatTimeAgo, date_argument.
  destruct (includes_char "Z" timestamp); rewrite ?append_empty_r.
  - split; [reflexivity|]. split; [tauto|]. intros DP' ->. reflexivity.
  - split; [reflexivity|]. split.
    + split; [intros H; exfalso; exact (append_char_neq _ _ H) | discriminate].
    + intros DP' ->. reflexivity.
Qed.









(** ** Trigger reasons *)

Lemma replace_all_char_get (c d : ascii) (s : string) (n : nat) :
  String.get n (replace_all_char c d s)
  = option_map (fun x => if Ascii.eqb x c then d else x) (String.get n s).
Proof.
  revert n. induction s as [|x s IH]; intros n; [reflexivity|].
  destruct n as [|n]; simpl; [reflexivity | apply IH].
Qed.

Lemma replace_all_char_gone (c d : ascii) (s : string) :
  c <> d -> includes_char c (replace_all_char c d s) = false.
Proof.
  intros Hcd. induction s as [|x s IH]; [reflexivity|].
  simpl. rewrite IH, orb_false_r.
  destruct (Ascii.eqb_spec x c) as [->|Hx].
  - apply Ascii.eqb_neq. congruence.
  - apply Ascii.eqb_neq. exact Hx.
Qed.

Lemma upper_word_starts_get (prev : bool) (s : string) (n : nat) :
  String.get n (upper_word_starts prev s)
  = option_map
      (fun c =>
         if is_word_char c
            && negb (match n with O => prev | S _ => word_char_before s n end)
         then to_upper c else c)
      (String.get n s).
Proof.
  revert prev n. induction s as [|x s IH]; intros prev n; [reflexivity|].
  destruct n as [|n]; [reflexivity|].
  cbn [upper_word_starts String.get]. rewrite IH.
  destruct n as [|n]; reflexivity.
Qed.

Lemma capitalize_words_get (s : string) (n : nat) :
  String.get n (capitalize_words s)
  = option_map
      (fun c => if is_word_char c && negb (word_char_before s n)
                then to_upper c else c)
      (String.get n s).
Proof.
  unfold capitalize_words. rewrite upper_word_starts_get.
  destruct n; reflexivity.
Qed.

Lemma prefix_append (pat post : string) : String.prefix pat (pat ++ post) = true.
Proof.
  induction pat as [|c pat IH]; [destruct post; reflexivity|].
  rewrite append_cons. simpl. rewrite IH.
  destruct (ascii_dec c c); [reflexivity | contradiction].
Qed.

Lemma drop_chars_append (pat post : string) :
  drop_chars (String.length pat) (pat ++ post) = post.
Proof.
  induction pat as [|c pat IH]; [destruct post; reflexivity|].
  rewrite append_cons. simpl. exact IH.
Qed.

(** An override replaces the phrase where it stands. *)
Lemma replace_first_at_start (pat rep post : string) :
  replace_first pat rep (pat ++ post) = rep ++ post.
Proof.
  destruct (pat ++ post) as [|c s] eqn:E; cbn [replace_first];
    rewrite <- E, prefix_append, drop_chars_append; reflexivity.
Qed.

Lemma replace_first_skip (pat rep : string) (c : ascii) (s : string) :
  String.prefix pat (String c s) = false ->
  replace_first pat rep (String c s) = String c (replace_first pat rep s).
Proof. intros H. cbn [replace_first]. rewrite H. reflexivity. Qed.

(** In a reason code made of word characters, every character of the
    spaced text is a space or a word character. *)
Lemma spaced_chars (r : string) (n : nat) (c : ascii) :
  all_word_chars r = true ->
  String.get n (replace_all_char "_" " " r) = Some c ->
  is_word_char c = negb (Ascii.eqb c " ").
Proof.
  revert n. induction r as [|x r IH]; intros n Hall Hget; [discriminate|].
  simpl in Hall. apply andb_prop in Hall. destruct Hall as [Hx Hr].
  destruct n as [|n]; [|exact (IH n Hr Hget)].
  simpl in Hget. injection Hget as <-.
  destruct (Ascii.eqb_spec x "_") as [->|Hne]; [reflexivity|].
  rewrite Hx. destruct (Ascii.eqb_spec x " ") as [->|_]; [discriminate Hx | reflexivity].
Qed.

Lemma get_before (s : string) (n : nat) (c : ascii) :
  String.get (S n) s = Some c -> exists p, String.get n s = Some p.
Proof.
  revert n. induction s as [|x s IH]; intros n Hget; [discriminate|].
  destruct n as [|n]; [exists x; reflexivity|].
  exact (IH n Hget).
Qed.

Lemma to_upper_space : to_upper " " = " "%char.
Proof. reflexivity. Qed.

Lemma capitalize_machine_code (r : string) (n : nat) :
  all_word_chars r = true ->
  String.get n (capitalize_words (replace_all_char "_" " " r))
  = option_map
      (fun c => if word_start (replace_all_char "_" " " r) n then to_upper c else c)
      (String.get n (replace_all_char "_" " " r)).
Proof.
  intros Hall. rewrite capitalize_words_get.
  destruct (String.get n (replace_all_char "_" " " r)) as [c|] eqn:Hc; [|reflexivity].
  cbn [option_map]. f_equal.
  rewrite (spaced_chars r n c Hall Hc).
  destruct (Ascii.eqb_spec c " ") as [->|Hne].
  - cbn [negb andb]. rewrite to_upper_space. destruct (word_start _ n); reflexivity.
  - cbn [negb andb]. destruct n as [|n]; [reflexivity|].
    cbn [word_char_before word_start].
    destruct (String.get n (replace_all_char "_" " " r)) as [p|] eqn:Hp.
    + rewrite (spaced_chars r n p Hall Hp). rewrite negb_involutive. reflexivity.
    + exfalso. destruct (get_before _ _ _ Hc) as [p Hp']. congruence.
Qed.

Lemma prefix_split (pat s : string) :
  String.prefix pat s = true -> s = pat ++ drop_chars (String.length pat) s.
Proof.
  revert s. induction pat as [|c pat IH]; intros s H.
  - destruct s; reflexivity.
  - destruct s as [|x s]; [discriminate H|].
    simpl in H. destruct (ascii_dec c x) as [->|]; [|discriminate H].
    rewrite append_cons. simpl. f_equal. apply IH. exact H.
Qed.

Lemma prefix_false_no_head (pat s post : string) :
  String.prefix pat s = false -> s <> pat ++ post.
Proof.
  intros H ->. rewrite prefix_append in H. discriminate H.
Qed.

(** The scan of [replace_first] replaces the leftmost occurrence. *)
Lemma replace_first_spec (pat rep s : string) :
  first_replaced pat rep s (replace_first pat rep s).
Proof.
  assert (Hhead : forall t, String.prefix pat t = true ->
            first_replaced pat rep t (rep ++ drop_chars (String.length pat) t)).
  { intros t Ht. left. exists "", (drop_chars (String.length pat) t).
    split; [apply (prefix_split pat t Ht)|]. split; [|reflexivity].
    intros pre' post' _. simpl. lia. }
  induction s as [|x s IH].
  - cbn [replace_first]. destruct (String.prefix pat "") eqn:Hp; [apply Hhead, Hp|].
    right. split; [|reflexivity]. intros pre' post' H.
    destruct pre' as [|y pre']; [|discriminate H].
    exact (prefix_false_no_head pat "" post' Hp H).
  - cbn [replace_first].
    destruct (String.prefix pat (String x s)) eqn:Hp; [apply Hhead, Hp|].
    destruct IH as [(pre & post & Hs & Hmin & Hout) | [Hnone Hout]].
    + left. exists (String x pre), post. split; [rewrite Hs at 1; reflexivity|].
      split; [|rewrite Hout; reflexivity].
      intros pre' post' H. destruct pre' as [|y pre'].
      * exfalso. exact (prefix_false_no_head pat _ post' Hp H).
      * rewrite append_cons in H. injection H as _ H.
        specialize (Hmin pre' post' H). simpl. lia.
    + right. split; [|rewrite Hout; reflexivity].
      intros pre' post' H. destruct pre' as [|y pre'].
      * exact (prefix_false_no_head pat _ post' Hp H).
      * rewrite append_cons in H. injection H as _ H.
        exact (Hnone pre' post' H).
Qed.

Lemma append_same_length (p1 p2 t1 t2 : string) :
  String.length p1 = String.length p2 -> p1 ++ t1 = p2 ++ t2 ->
  p1 = p2 /\ t1 = t2.
Proof.
  revert p2. induction p1 as [|c p1 IH]; intros p2 Hlen H.
  - destruct p2; [split; [reflexivity | exact H] | discriminate Hlen].
  - destruct p2 as [|d p2]; [discriminate Hlen|].
    rewrite !append_cons in H. injection H as -> H.
    simpl in Hlen. injection Hlen as Hlen.
    destruct (IH p2 Hlen H) as [-> ->]. split; reflexivity.
Qed.

(** [first_replaced] determines its result. *)
Lemma first_replaced_functional (pat rep s out1 out2 : string) :
  first_replaced pat rep s out1 -> first_replaced pat rep s out2 -> out1 = out2.
Proof.
  intros [(pre1 & post1 & Hs1 & Hmin1 & ->) | [Hnone1 ->]]
         [(pre2 & post2 & Hs2 & Hmin2 & ->) | [Hnone2 ->]].
  - assert (Hlen : String.length pre1 = String.length pre2).
    { apply Nat.le_antisymm; [apply (Hmin1 pre2 post2 Hs2) | apply (Hmin2 pre1 post1 Hs1)]. }
    rewrite Hs1 in Hs2. destruct (append_same_length _ _ _ _ Hlen Hs2) as [-> Hrest].
    destruct (append_same_length pat pat post1 post2 eq_refl Hrest) as [_ ->].
    reflexivity.
  - exfalso. exact (Hnone2 pre1 post1 Hs1).
  - exfalso. exact (Hnone1 pre2 post2 Hs2).
  - reflexivity.
Qed.

(** C5.  [formatTriggerReason] returns the empty string for the empty
    string.  For a non-empty reason it goes through three stages.  The
    spaced text has, position by position, a space where the reason has
    an underscore.  The capitalized text has the upper-case letter where
    a word starts (a word character at the start or after a character
    that is not one); in a reason made of letters, digits and underscores
    these are the first position and the positions after a space.  Then
    the four entries of the override dictionary are applied one after
    the other, each replacing the leftmost occurrence of its phrase, if
    there is one, and keeping the rest of the text.  It gives "High
    utilization" for "scale_up_threshold" and "Custom Reason" for
    "custom_reason". *)
Theorem formatTriggerReason_spec :
  formatTriggerReason (JStr "") = Normal "" /\
  (forall r : string, r <> "" ->
     exists spaced capitalized step1 step2 step3 out : string,
       formatTriggerReason (JStr r) = Normal out /\
       first_replaced "Minimum Servers Enforcement" "Maintaining minimum servers"
         capitalized step1 /\
       first_replaced "Maximum Servers Enforcement" "Maintaining maximum servers"
         step1 step2 /\
       first_replaced "Scale Up Threshold" "High utilization" step2 step3 /\
       first_replaced "Scale Down Threshold" "Low utilization" step3 out /\
       String.length spaced = String.length r /\
       includes_char "_" spaced = false /\
       (forall n, String.get n spaced
                  = option_map (fun c => if Ascii.eqb c "_" then " "%char else c)
                      (String.get n r)) /\
       (forall n, String.get n capitalized
                  = option_map
                      (fun c => if is_word_char c && negb (word_char_before spaced n)
                                then to_upper c else c)
                      (String.get n spaced)) /\
       (all_word_chars r = true ->
        forall n, String.get n capitalized
                  = option_map (fun c => if word_start spaced n then to_upper c else c)
                      (String.get n spaced))) /\
  formatTriggerReason (JStr "scale_up_threshold") = Normal "High utilization" /\
  formatTriggerReason (JStr "scale_down_threshold") = Normal "Low utilization" /\
  formatTriggerReason (JStr "minimum_servers_enforcement")
    = Normal "Maintaining minimum servers" /\
  formatTriggerReason (JStr "maximum_servers_enforcement")
    = Normal "Maintaining maximum servers" /\
  formatTriggerReason (JStr "custom_reason") = Normal "Custom Reason".
Proof.
  split; [reflexivity|]. split.
  - intros r Hr.
    exists (replace_all_char "_" " " r),
           (capitalize_words (replace_all_char "_" " " r)).
    eexists. eexists. eexists. eexists.
    split.
    { rewrite formatTriggerReason_string.
      destruct (String.eqb_spec r ""); [contradiction|].
      unfold formatted_reason, apply_overrides. reflexivity. }
    split; [apply replace_first_spec|].
    split; [apply replace_first_spec|].
    split; [apply replace_first_spec|].
    split; [apply replace_first_spec|].
    split; [apply replace_all_char_length|].
    split; [apply replace_all_char_gone; discriminate|].
    split; [intros n; apply replace_all_char_get|].
    split; [intros n; apply capitalize_words_get|].
    intros Hcode n. apply capitalize_machine_code. exact Hcode.
  - repeat split; reflexivity.
Qed.

(** ** The rendered page *)

Section ViewFacts.

Variable StringToNumber : string -> number.
Variable Date_parse : string -> number.

Lemma render_badge_normal (b : value) :
  (b = JUndefined \/ exists text, b = JStr text) ->
  exists shown, render_badge b = Normal shown.
Proof.
  intros [-> | [text ->]]; unfold render_badge.
  - eexists; reflexivity.
  - destruct (truthy (JStr text)); eexists; reflexivity.
Qed.

Lemma render_row_normal (now : Z) (activity : Activity) :
  exists row,
    render_row StringToNumber Date_parse now activity = Normal row /\
    row_activity row = activity.
Proof.
  unfold render_row.
  destruct (getActivityDetails_normal StringToNumber activity) as (d & -> & Hbadge).
  destruct (render_badge_normal _ Hbadge) as (shown & Hshown).
  cbn [bind]. rewrite Hshown. cbn [bind].
  eexists. split; reflexivity.
Qed.

Lemma render_rows_normal (now : Z) (activities : list Activity) :
  exists rows,
    map_completion (render_row StringToNumber Date_parse now) activities = Normal rows /\
    List.map row_activity rows = activities.
Proof.
  induction activities as [|a l (rows & Hrows & Hmap)].
  - exists []. split; reflexivity.
  - destruct (render_row_normal now a) as (row & Hrow & Hact).
    exists (row :: rows). cbn [map_completion]. rewrite Hrow, Hrows.
    split; [reflexivity|]. simpl. rewrite Hact, Hmap. reflexivity.
Qed.

Lemma length_zero_nil {A} (l : list A) : Nat.eqb (List.length l) 0 = true -> l = [].
Proof. destruct l; [reflexivity | discriminate]. Qed.

(** The body of a render pass, state by state. *)
Lemma ActivityPage_normal (now currentPage : Z) (isPending : bool)
    (data : option (list Activity)) :
  exists view,
    ActivityPage StringToNumber Date_parse now currentPage isPending data = Normal view /\
    match view_body view with
    | Skeletons count => isPending = true /\ count = 10%nat
    | NoActivityFound => isPending = false /\ visible_activities data = []
    | Rows rows =>
        isPending = false /\ List.map row_activity rows = visible_activities data
    end.
Proof.
  unfold ActivityPage. destruct isPending.
  - eexists. split; [reflexivity|]. split; reflexivity.
  - destruct (Nat.eqb (List.length (visible_activities data)) 0) eqn:Hlen.
    + eexists. split; [reflexivity|]. split; [reflexivity|].
      apply length_zero_nil. exact Hlen.
    + destruct (render_rows_normal now (visible_activities data)) as (rows & -> & Hmap).
      eexists. split; [reflexivity|]. split; [reflexivity | exact Hmap].
Qed.

End ViewFacts.

(** C8.  A render pass always produces a view, and when the view shows
    rows, they are the rows of the fetched entries that are not backup
    operations, in the fetched order: no row has the type
    BACKUP_OPERATION, wherever the backup entries stood in the page, and
    every other fetched entry has its row. *)
Theorem rendered_rows_exclude_backup (StringToNumber Date_parse : string -> number)
    (now currentPage : Z) (isPending : bool) (data : option (list Activity)) :
  exists view,
    ActivityPage StringToNumber Date_parse now currentPage isPending data = Normal view /\
    forall rows, view_body view = Rows rows ->
      List.map row_activity rows
        = List.filter (fun a => negb (String.eqb (activityType a) "BACKUP_OPERATION"))
            (default [] data) /\
      Forall (fun row => activityType (row_activity row) <> "BACKUP_OPERATION") rows /\
      (forall a, In a (default [] data) ->
                 activityType a <> "BACKUP_OPERATION" ->
                 In a (List.map row_activity rows)).
Proof.
  destruct (ActivityPage_normal StringToNumber Date_parse now currentPage isPending data)
    as (view & Hview & Hbody).
  exists view. split; [exact Hview|].
  intros rows Hrows. rewrite Hrows in Hbody. destruct Hbody as [_ Hmap].
  split; [exact Hmap|]. split.
  - apply List.Forall_forall. intros row Hin.
    apply (visible_not_backup data). rewrite <- Hmap.
    apply List.in_map. exact Hin.
  - intros a Hin Hne. rewrite Hmap. unfold visible_activities.
    apply filter_In. split; [exact Hin|].
    unfold is_backup.
    destruct (String.eqb_spec (activityType a) "BACKUP_OPERATION");
      [contradiction | reflexivity].
Qed.

(** A page with a backup operation first, in the middle and last. *)
Lemma rendered_rows_exclude_backup_witness :
  exists view rows,
    ActivityPage sample_StringToNumber sample_Date_parse 90000 1 false
      (Some [backup_entry; scaling_entry; backup_entry; scaling_3_to_5; backup_entry])
      = Normal view /\
    view_body view = Rows rows /\
    List.map row_activity rows = [scaling_entry; scaling_3_to_5].
Proof.
  destruct (rendered_rows_exclude_backup sample_StringToNumber sample_Date_parse 90000 1
              false
              (Some [backup_entry; scaling_entry; backup_entry; scaling_3_to_5; backup_entry]))
    as (view & Hview & Hrows).
  exists view.
  destruct (view_body view) as [count | | rows] eqn:Hbody.
  - exfalso. vm_compute in Hview. injection Hview as <-. discriminate Hbody.
  - exfalso. vm_compute in Hview. injection Hview as <-. discriminate Hbody.
  - exists rows. split; [exact Hview|]. split; [reflexivity|].
    destruct (Hrows rows eq_refl) as (Hmap & _). exact Hmap.
Defined.

(** C9.  Once loading has finished, a page whose filtered list is empty
    renders the zero-results message and no pagination bar, whatever the
    current page: neither a click on Previous nor one on Next changes the
    page. *)
Theorem empty_page_has_no_pagination (StringToNumber Date_parse : string -> number)
    (now currentPage : Z) (data : option (list Activity)) :
  visible_activities data = [] ->
  exists view,
    ActivityPage StringToNumber Date_parse now currentPage false data = Normal view /\
    view_body view = NoActivityFound /\
    view_pagination view = None /\
    forall c, on_click view currentPage c = currentPage.
Proof.
  intros Hempty. unfold ActivityPage. rewrite Hempty. cbn.
  eexists. split; [reflexivity|]. repeat split.
Qed.

(** Page 3, where Previous would be enabled, with a fetched page that
    holds only a backup operation. *)
Lemma empty_page_has_no_pagination_witness :
  hasPrevPage 3 = true /\
  exists view,
    ActivityPage sample_StringToNumber sample_Date_parse 90000 3 false
      (Some backup_only_page) = Normal view /\
    view_body view = NoActivityFound /\
    view_pagination view = None /\
    forall c, on_click view 3 c = 3.
Proof.
  split; [reflexivity|].
  apply (empty_page_has_no_pagination sample_StringToNumber sample_Date_parse 90000 3
           (Some backup_only_page)).
  reflexivity.
Defined.

(** * Further properties of the page *)

(** ** [formatTimeAgo] at its edges *)

(** X1.  A timestamp the runtime cannot parse gives the label "NaNd":
    every comparison with NaN is false, so all three early returns are
    passed. *)
Theorem formatTimeAgo_invalid_date (Date_parse : string -> number)
    (now : Z) (timestamp : string) :
  Date_parse (date_argument timestamp) = NaN ->
  formatTimeAgo Date_parse now timestamp = "NaNd".
Proof. intros H. unfold formatTimeAgo. rewrite H. reflexivity. Qed.

Lemma formatTimeAgo_invalid_date_witness :
  formatTimeAgo (fun _ => NaN) 90000 "yesterday" = "NaNd".
Proof. apply (formatTimeAgo_invalid_date (fun _ => NaN) 90000 "yesterday"). reflexivity. Defined.

(** X2.  A timestamp in the future (the parsed instant is after now) is
    labelled "now", however far ahead it is. *)
Theorem formatTimeAgo_future (Date_parse : string -> number)
    (now : Z) (timestamp : string) (t : Z) :
  Date_parse (date_argument timestamp) = Num t ->
  now < t ->
  formatTimeAgo Date_parse now timestamp = "now".
Proof.
  intros Hparse Hfuture. unfold formatTimeAgo. rewrite Hparse.
  cbn [sub floor_div lt].
  assert (Hneg : (now - t) / (1000 * 60) < 1).
  { apply Z.div_lt_upper_bound; lia. }
  destruct (Z.ltb_spec ((now - t) / (1000 * 60)) 1); [reflexivity | lia].
Qed.

Lemma formatTimeAgo_future_witness :
  formatTimeAgo (fun _ => Num 1000000000) 90000 "2031-01-01T00:00:00Z" = "now".
Proof.
  apply (formatTimeAgo_future (fun _ => Num 1000000000) 90000 "2031-01-01T00:00:00Z"
           1000000000 eq_refl).
  lia.
Defined.

(** X3.  For a timestamp that parses, the label is "now", or a count of
    minutes from 1 to 59 with "m", or a count of hours from 1 to 23 with
    "h", or a count of days of at least 1 with "d": a zero count or a
    count of 60 minutes or 24 hours is never shown. *)
Theorem formatTimeAgo_label_range (Date_parse : string -> number)
    (now : Z) (timestamp : string) (t : Z) :
  Date_parse (date_argument timestamp) = Num t ->
  formatTimeAgo Date_parse now timestamp = "now" \/
  (exists n, 1 <= n <= 59 /\
             formatTimeAgo Date_parse now timestamp = string_of_Z n ++ "m") \/
  (exists n, 1 <= n <= 23 /\
             formatTimeAgo Date_parse now timestamp = string_of_Z n ++ "h") \/
  (exists n, 1 <= n /\
             formatTimeAgo Date_parse now timestamp = string_of_Z n ++ "d").
Proof.
  intros Hparse. unfold formatTimeAgo. rewrite Hparse.
  cbn [sub floor_div lt number_to_string].
  set (m := (now - t) / (1000 * 60)).
  destruct (Z.ltb_spec m 1) as [|Hm1]; [left; reflexivity|].
  destruct (Z.ltb_spec m 60) as [Hm|Hm60].
  { right; left. exists m. split; [lia | reflexivity]. }
  assert (Hh : 1 <= m / 60) by (apply Z.div_le_lower_bound; lia).
  destruct (Z.ltb_spec (m / 60) 24) as [Hh24|Hh24].
  { right; right; left. exists (m / 60). split; [lia | reflexivity]. }
  right; right; right. exists (m / 60 / 24). split; [|reflexivity].
  apply Z.div_le_lower_bound; lia.
Qed.

Lemma formatTimeAgo_label_range_witness :
  formatTimeAgo sample_Date_parse 3599999 "2024-05-01T12:00:00" = "now" \/
  (exists n, 1 <= n <= 59 /\
     formatTimeAgo sample_Date_parse 3599999 "2024-05-01T12:00:00" = string_of_Z n ++ "m") \/
  (exists n, 1 <= n <= 23 /\
     formatTimeAgo sample_Date_parse 3599999 "2024-05-01T12:00:00" = string_of_Z n ++ "h") \/
  (exists n, 1 <= n /\
     formatTimeAgo sample_Date_parse 3599999 "2024-05-01T12:00:00" = string_of_Z n ++ "d").
Proof.
  apply (formatTimeAgo_label_range sample_Date_parse 3599999 "2024-05-01T12:00:00" 0).
  reflexivity.
Defined.

Lemma includes_char_append (c : ascii) (s t : string) :
  includes_char c (s ++ t) = includes_char c s || includes_char c t.
Proof.
  induction s as [|x s IH]; [reflexivity|].
  rewrite append_cons. simpl. rewrite IH, orb_assoc. reflexivity.
Qed.

(** X4.  The string handed to the date parser always contains a "Z", and
    preparing it twice changes nothing: a "Z" is appended at most once. *)
Theorem date_argument_idempotent (timestamp : string) :
  includes_char "Z" (date_argument timestamp) = true /\
  date_argument (date_argument timestamp) = date_argument timestamp.
Proof.
  assert (Hz : includes_char "Z" (date_argument timestamp) = true).
  { unfold date_argument. destruct (includes_char "Z" timestamp) eqn:E.
    - rewrite append_empty_r. exact E.
    - rewrite includes_char_append, E. reflexivity. }
  split; [exact Hz|].
  unfold date_argument at 1. rewrite Hz. apply append_empty_r.
Qed.

(** ** The presenter beyond scaling operations *)




Lemma includes_char_drop (c : ascii) (n : nat) (s : string) :
  includes_char c s = false -> includes_char c (drop_chars n s) = false.
Proof.
  revert s. induction n as [|n IH]; intros s Hs; [destruct s; exact Hs|].
  destruct s as [|x s]; [exact Hs|].
  simpl in Hs. apply orb_false_elim in Hs. simpl. apply IH. tauto.
Qed.

Lemma includes_char_replace_first (c : ascii) (pat rep s : string) :
  includes_char c rep = false -> includes_char c s = false ->
  includes_char c (replace_first pat rep s) = false.
Proof.
  intros Hrep. induction s as [|x s IH]; intros Hs.
  - cbn [replace_first]. destruct (String.prefix pat ""); [|reflexivity].
    rewrite includes_char_append, Hrep. simpl.
    apply includes_char_drop. reflexivity.
  - cbn [replace_first]. destruct (String.prefix pat (String x s)).
    + rewrite includes_char_append, Hrep. simpl.
      apply includes_char_drop. exact Hs.
    + simpl in Hs. apply orb_false_elim in Hs. destruct Hs as [Hx Hs].
      simpl. rewrite Hx. simpl. apply IH. exact Hs.
Qed.

Lemma upper_word_starts_keeps_underscore_free (prev : bool) (s : string) :
  includes_char "_" s = false ->
  includes_char "_" (upper_word_starts prev s) = false.
Proof.
  revert prev. induction s as [|x s IH]; intros prev Hs; [reflexivity|].
  simpl in Hs. apply orb_false_elim in Hs. destruct Hs as [Hx Hs].
  cbn [upper_word_starts includes_char]. rewrite (IH _ Hs), orb_false_r.
  destruct (is_word_char x && negb prev); [|exact Hx].
  unfold to_upper.
  destruct ((97 <=? N_of_ascii x) && (N_of_ascii x <=? 122))%N eqn:Hlow; [|exact Hx].
  apply Ascii.eqb_neq. intros Heq.
  apply (f_equal N_of_ascii) in Heq. rewrite N_ascii_embedding in Heq.
  - simpl in Heq. apply andb_prop in Hlow. destruct Hlow as [H1 H2].
    apply N.leb_le in H1, H2. lia.
  - apply andb_prop in Hlow. destruct Hlow as [H1 H2].
    apply N.leb_le in H1, H2. lia.
Qed.

Lemma or_else_unconvertible (v w : value) :
  or_else v w = JObject None -> w <> JObject None -> v = JObject None.
Proof.
  unfold or_else. destruct (truthy v); [auto | intros H Hw; contradiction].
Qed.

(** Looks for the conversion that throws in a chain of bound steps. *)
Ltac find_throw :=
  repeat (cbn [bind or_else truthy to_string to_number];
          match goal with
          | |- exists e, Throw _ = Throw e => eexists; reflexivity
          | |- exists e, bind ?c _ = Throw e => destruct c
          end).

(** Finds the step that threw among the hypotheses and names the field
    behind it. *)
Ltac thrown_step :=
  match goal with
  | Hs : to_number _ _ = Throw _ |- _ => apply to_number_throws in Hs
  | Hs : to_string _ = Throw _ |- _ => apply to_string_throws in Hs
  | Hs : formatTriggerReason _ = Throw _ |- _ =>
      apply formatTriggerReason_throws in Hs; destruct Hs as (? & ? & _)
  end;
  try match goal with
      | Hs : or_else _ _ = JObject None |- _ =>
          apply or_else_unconvertible in Hs; [|discriminate]
      end.

(** X5.  The [try] block of the presenter throws exactly in these
    situations.  For a SCALING_OPERATION: [servers_before] or
    [servers_after] is an object or array whose conversion to a
    primitive throws, or [trigger_reason] is truthy and not a string.
    For a PLAYER_SURGE or PLAYER_DROP: one of the two counts or the time
    window is such an object.  For a CAPACITY_REACHED: the count or the
    capacity is.  For a SERVER_RESTART: the previous uptime is.  An
    ATLAS_LIFECYCLE and an unknown type never reach the catch. *)
Theorem details_switch_throws_iff (StringToNumber : string -> number)
    (type : string) (m : gmap string value) :
  (exists e, details_switch StringToNumber type m = Throw e) <->
  (type = "SCALING_OPERATION" /\
     (field m "servers_before" = JObject None \/
      field m "servers_after" = JObject None \/
      (truthy (field m "trigger_reason") = true /\
       forall s, field m "trigger_reason" <> JStr s))) \/
  ((type = "PLAYER_SURGE" \/ type = "PLAYER_DROP") /\
     (field m "previousPlayerCount" = JObject None \/
      field m "newPlayerCount" = JObject None \/
      field m "timeWindow" = JObject None)) \/
  (type = "CAPACITY_REACHED" /\
     (field m "newPlayerCount" = JObject None \/
      field m "capacity" = JObject None)) \/
  (type = "SERVER_RESTART" /\ field m "previousUptime" = JObject None).
Proof.
  split.
  - intros [e H]. unfold details_switch in H.
    destruct (String.eqb_spec type "SCALING_OPERATION") as [->|_].
    { cbv beta iota in H. left. split; [reflexivity|].
      bind_cases H; thrown_step; auto. }
    destruct (String.eqb_spec type "PLAYER_SURGE") as [->|_].
    { cbv beta iota in H. right; left. split; [left; reflexivity|].
      bind_cases H; thrown_step; auto. }
    destruct (String.eqb_spec type "PLAYER_DROP") as [->|_].
    { cbv beta iota in H. right; left. split; [right; reflexivity|].
      bind_cases H; thrown_step; auto. }
    destruct (String.eqb_spec type "CAPACITY_REACHED") as [->|_].
    { cbv beta iota in H. right; right; left. split; [reflexivity|].
      bind_cases H; thrown_step; auto. }
    destruct (String.eqb_spec type "SERVER_RESTART") as [->|_].
    { cbv beta iota in H. right; right; right. split; [reflexivity|].
      destruct (truthy (field m "previousUptime")); cbn [bind] in H;
        [|discriminate H].
      destruct (to_string (field m "previousUptime")) eqn:Huptime;
        cbn [bind] in H; [discriminate H|].
      thrown_step; auto. }
    destruct (String.eqb type "ATLAS_LIFECYCLE"); discriminate H.
  - intros [[-> Hcase] | [[Htype Hcase] | [[-> Hcase] | [-> Hcase]]]].
    + rewrite details_switch_scaling. cbv zeta.
      destruct Hcase as [Hb | [Ha | [Ht Hns]]].
      * rewrite Hb. find_throw.
      * rewrite Ha. find_throw.
      * assert (Hthrow : formatTriggerReason (field m "trigger_reason")
                         = Throw (TypeError "reason.replace is not a function"))
          by (apply formatTriggerReason_throws; auto).
        rewrite Hthrow. find_throw.
    + destruct Htype as [-> | ->]; unfold details_switch;
        cbn [String.eqb Ascii.eqb Bool.eqb];
        destruct Hcase as [Hp | [Hn | Hw]];
        [rewrite Hp | rewrite Hn | rewrite Hw | rewrite Hp | rewrite Hn | rewrite Hw];
        find_throw.
    + unfold details_switch. cbn [String.eqb Ascii.eqb Bool.eqb].
      destruct Hcase as [Hn | Hc]; [rewrite Hn | rewrite Hc]; find_throw.
    + unfold details_switch. cbn [String.eqb Ascii.eqb Bool.eqb].
      rewrite Hcase. find_throw.
Qed.

(** X6.  For a non-empty reason string [formatTriggerReason] returns a
    non-empty text without underscores, so the fallback "Auto-scaling
    triggered" is taken for an empty or absent reason only. *)
Theorem formatTriggerReason_nonempty (r : string) :
  r <> "" ->
  exists text,
    formatTriggerReason (JStr r) = Normal text /\
    text <> "" /\
    includes_char "_" text = false /\
    or_else (JStr text) (JStr "Auto-scaling triggered") = JStr text.
Proof.
  intros Hr. exists (formatted_reason r).
  assert (Hne : formatted_reason r <> "") by (apply formatted_reason_nonempty; exact Hr).
  split.
  { rewrite formatTriggerReason_string.
    destruct (String.eqb_spec r ""); [contradiction | reflexivity]. }
  split; [exact Hne|]. split.
  - unfold formatted_reason, apply_overrides.
    repeat (apply includes_char_replace_first; [reflexivity|]).
    apply upper_word_starts_keeps_underscore_free.
    apply replace_all_char_gone. discriminate.
  - unfold or_else. simpl.
    destruct (String.eqb_spec (formatted_reason r) ""); [contradiction | reflexivity].
Qed.

Lemma formatTriggerReason_nonempty_witness :
  exists text,
    formatTriggerReason (JStr "manual_scale_request") = Normal text /\
    text <> "" /\
    includes_char "_" text = false /\
    or_else (JStr text) (JStr "Auto-scaling triggered") = JStr text.
Proof. apply (formatTriggerReason_nonempty "manual_scale_request"). discriminate. Defined.

Section MorePresenterFacts.

Variable StringToNumber : string -> number.

Lemma window_text_printed (timeWindow : value) (w : string) :
  window_text timeWindow w ->
  to_string (or_else timeWindow (JStr "5m")) = Normal w.
Proof.
  unfold or_else. intros [[-> ->] | [-> [_ Hw]]]; [reflexivity | exact Hw].
Qed.

(** The surge and drop branches on counts that are safe integers. *)
Lemma details_switch_surge (m : gmap string value) (p n : Z) (w : string) :
  field m "previousPlayerCount" = JNum (Num p) ->
  field m "newPlayerCount" = JNum (Num n) ->
  safe_integer p -> safe_integer n -> safe_integer (n - p) ->
  window_text (field m "timeWindow") w ->
  details_switch StringToNumber "PLAYER_SURGE" m =
  Normal
    {| summary := JStr (string_of_Z p ++ " → " ++ string_of_Z n ++ " players");
       details := JStr ("Surge detected in " ++ w);
       badge := JStr ("+" ++ string_of_Z (n - p)) |}.
Proof.
  intros Hp Hn _ _ _ Hw. unfold details_switch. cbn [String.eqb Ascii.eqb Bool.eqb].
  rewrite Hp, Hn, (window_text_printed _ _ Hw). reflexivity.
Qed.

Lemma details_switch_drop (m : gmap string value) (p n : Z) (w : string) :
  field m "previousPlayerCount" = JNum (Num p) ->
  field m "newPlayerCount" = JNum (Num n) ->
  safe_integer p -> safe_integer n -> safe_integer (p - n) ->
  window_text (field m "timeWindow") w ->
  details_switch StringToNumber "PLAYER_DROP" m =
  Normal
    {| summary := JStr (string_of_Z p ++ " → " ++ string_of_Z n ++ " players");
       details := JStr ("Drop detected in " ++ w);
       badge := JStr ("-" ++ string_of_Z (p - n)) |}.
Proof.
  intros Hp Hn _ _ _ Hw. unfold details_switch. cbn [String.eqb Ascii.eqb Bool.eqb].
  rewrite Hp, Hn, (window_text_printed _ _ Hw). reflexivity.
Qed.

Lemma details_switch_restart (m : gmap string value) :
  details_switch StringToNumber "SERVER_RESTART" m =
  bind (if truthy (field m "previousUptime")
        then bind (to_string (field m "previousUptime")) (fun uptime =>
             Normal (JStr ("Uptime: " ++ uptime)))
        else Normal (JStr "")) (fun uptime_line =>
  Normal
    {| summary := or_else (field m "reason") (JStr "Manual restart");
       details := uptime_line;
       badge := JStr "RESTART" |}).
Proof. reflexivity. Qed.

Lemma details_switch_unknown (type : string) (m : gmap string value) :
  is_known_type type = false ->
  details_switch StringToNumber type m = Normal empty_details.
Proof.
  unfold is_known_type, details_switch. intros H.
  repeat (apply orb_false_elim in H; destruct H as [H ?]).
  repeat match goal with
         | E : String.eqb type _ = false |- _ => rewrite E; clear E
         end.
  reflexivity.
Qed.

End MorePresenterFacts.

(** X7.  For a PLAYER_SURGE whose counts [p] (previous) and [n] (new)
    are safe integers with a safe difference, the summary is
    "p → n players", the details name the time window, "5m" when the
    field is absent or falsy, and the badge is "+" followed by n - p as
    it is: a count of zero is shown as 0, and a negative difference
    keeps its minus sign after the plus. *)
Theorem player_surge_presented (StringToNumber : string -> number)
    (activity : Activity) (m : gmap string value) (p n : Z) (w : string) :
  activityType activity = "PLAYER_SURGE" ->
  metadata activity = Some m ->
  field m "previousPlayerCount" = JNum (Num p) ->
  field m "newPlayerCount" = JNum (Num n) ->
  safe_integer p -> safe_integer n -> safe_integer (n - p) ->
  window_text (field m "timeWindow") w ->
  getActivityDetails StringToNumber activity =
    Normal
      {| summary := JStr (string_of_Z p ++ " → " ++ string_of_Z n ++ " players");
         details := JStr ("Surge detected in " ++ w);
         badge := JStr ("+" ++ string_of_Z (n - p)) |}.
Proof.
  intros Htype Hmeta Hp Hn Hsp Hsn Hsd Hw. unfold getActivityDetails.
  rewrite Hmeta, Htype, (details_switch_surge _ m p n w Hp Hn Hsp Hsn Hsd Hw).
  reflexivity.
Qed.

Lemma player_surge_presented_witness :
  getActivityDetails sample_StringToNumber
    (sample_activity "PLAYER_SURGE"
       [("previousPlayerCount", JNum (Num 40)); ("newPlayerCount", JNum (Num 35));
        ("timeWindow", JStr "10m")])
  = Normal {| summary := JStr "40 → 35 players";
              details := JStr "Surge detected in 10m";
              badge := JStr "+-5" |}.
Proof.
  etransitivity.
  - apply (player_surge_presented sample_StringToNumber _
             (list_to_map [("previousPlayerCount", JNum (Num 40));
                           ("newPlayerCount", JNum (Num 35));
                           ("timeWindow", JStr "10m")]) 40 35 "10m").
    + reflexivity.
    + reflexivity.
    + reflexivity.
    + reflexivity.
    + apply safe_integer_small. simpl. lia.
    + apply safe_integer_small. simpl. lia.
    + apply safe_integer_small. simpl. lia.
    + right. split; [reflexivity|]. split; [exact I | reflexivity].
  - reflexivity.
Defined.

(** X8.  For a PLAYER_DROP whose counts [p] (previous) and [n] (new)
    are safe integers with a safe difference, the summary is
    "p → n players", the details name the time window ("5m" by default)
    and the badge is "-" followed by p - n. *)
Theorem player_drop_presented (StringToNumber : string -> number)
    (activity : Activity) (m : gmap string value) (p n : Z) (w : string) :
  activityType activity = "PLAYER_DROP" ->
  metadata activity = Some m ->
  field m "previousPlayerCount" = JNum (Num p) ->
  field m "newPlayerCount" = JNum (Num n) ->
  safe_integer p -> safe_integer n -> safe_integer (p - n) ->
  window_text (field m "timeWindow") w ->
  getActivityDetails StringToNumber activity =
    Normal
      {| summary := JStr (string_of_Z p ++ " → " ++ string_of_Z n ++ " players");
         details := JStr ("Drop detected in " ++ w);
         badge := JStr ("-" ++ string_of_Z (p - n)) |}.
Proof.
  intros Htype Hmeta Hp Hn Hsp Hsn Hsd Hw. unfold getActivityDetails.
  rewrite Hmeta, Htype, (details_switch_drop _ m p n w Hp Hn Hsp Hsn Hsd Hw).
  reflexivity.
Qed.

(** The drop example of the specification: 50 players before, 30 after. *)
Lemma player_drop_presented_witness :
  getActivityDetails sample_StringToNumber drop_50_to_30
  = Normal {| summary := JStr "50 → 30 players";
              details := JStr "Drop detected in 5m";
              badge := JStr "-20" |}.
Proof.
  etransitivity.
  - apply (player_drop_presented sample_StringToNumber drop_50_to_30
             (list_to_map [("previousPlayerCount", JNum (Num 50));
                           ("newPlayerCount", JNum (Num 30))]) 50 30 "5m").
    + reflexivity.
    + reflexivity.
    + reflexivity.
    + reflexivity.
    + apply safe_integer_small. simpl. lia.
    + apply safe_integer_small. simpl. lia.
    + apply safe_integer_small. simpl. lia.
    + left. split; reflexivity.
  - reflexivity.
Defined.

(** X9.  An activity with no metadata, one of a type the presenter has no
    case for (BACKUP_OPERATION among them), and one whose [try] block
    threw are all rendered the same way: no badge, the activity's own
    description as summary, and "Triggered by" with the trigger as
    details. *)
Theorem render_row_fallback (StringToNumber Date_parse : string -> number)
    (now : Z) (activity : Activity) :
  (metadata activity = None \/
   is_known_type (activityType activity) = false \/
   exists m e, metadata activity = Some m /\
               details_switch StringToNumber (activityType activity) m = Throw e) ->
  render_row StringToNumber Date_parse now activity =
    Normal
      {| row_key := id activity;
         row_activity := activity;
         row_badge := None;
         row_time := formatTimeAgo Date_parse now (timestamp activity);
         row_summary := JStr (description activity);
         row_details := JStr ("Triggered by " ++ triggeredBy activity) |}.
Proof.
  intros Hcase. unfold render_row, getActivityDetails.
  destruct (metadata activity) as [m|] eqn:Hmeta; [|reflexivity].
  destruct Hcase as [Hnone | [Hunknown | (m' & e & Hm' & Hthrow)]].
  - discriminate.
  - rewrite (details_switch_unknown StringToNumber _ m Hunknown). reflexivity.
  - injection Hm' as <-. rewrite Hthrow. reflexivity.
Qed.

Lemma render_row_fallback_witness :
  render_row sample_StringToNumber sample_Date_parse 90000 lifecycle_without_metadata =
    Normal
      {| row_key := "c";
         row_activity := lifecycle_without_metadata;
         row_badge := None;
         row_time := "1m";
         row_summary := JStr "Atlas started";
         row_details := JStr "Triggered by system" |}.
Proof.
  apply (render_row_fallback sample_StringToNumber sample_Date_parse 90000
           lifecycle_without_metadata).
  left. reflexivity.
Defined.

(** X10.  A SERVER_RESTART row whose [previousUptime] is falsy, or is
    printed by the code as the text [u], carries the badge RESTART in the
    neutral variant; its summary is the [reason] field, or "Manual
    restart" when that is absent or falsy; and its details line is
    "Uptime: " followed by [u], or falls back to "Triggered by" without
    a [previousUptime]. *)
Theorem render_row_restart (StringToNumber Date_parse : string -> number)
    (now : Z) (activity : Activity) (m : gmap string value) (u : string) :
  activityType activity = "SERVER_RESTART" ->
  metadata activity = Some m ->
  (truthy (field m "previousUptime") = true ->
   shown_text (field m "previousUptime") u) ->
  exists row,
    render_row StringToNumber Date_parse now activity = Normal row /\
    row_badge row = Some ("RESTART", secondary) /\
    row_summary row = (if truthy (field m "reason") then field m "reason"
                       else JStr "Manual restart") /\
    row_details row =
      (if truthy (field m "previousUptime")
       then JStr ("Uptime: " ++ u)
       else JStr ("Triggered by " ++ triggeredBy activity)).
Proof.
  intros Htype Hmeta Hu. unfold render_row, getActivityDetails.
  rewrite Hmeta, Htype, details_switch_restart.
  destruct (truthy (field m "previousUptime")) eqn:Ht.
  - destruct (Hu eq_refl) as [_ Hprint]. rewrite Hprint.
    cbn [try_catch bind badge].
    eexists. split; [reflexivity|].
    cbn [row_badge row_summary row_details summary details].
    split; [reflexivity|]. split; [|reflexivity].
    unfold or_else. destruct (truthy (field m "reason")) eqn:Hr.
    + rewrite Hr. reflexivity.
    + reflexivity.
  - cbn [try_catch bind badge].
    eexists. split; [reflexivity|].
    cbn [row_badge row_summary row_details summary details].
    split; [reflexivity|]. split; [|reflexivity].
    unfold or_else. destruct (truthy (field m "reason")) eqn:Hr.
    + rewrite Hr. reflexivity.
    + reflexivity.
Qed.

(** A restart with a reason and an uptime of 3600, and one without
    uptime. *)
Lemma render_row_restart_witness :
  (exists row,
     render_row sample_StringToNumber sample_Date_parse 90000 restart_with_uptime
       = Normal row /\
     row_badge row = Some ("RESTART", secondary) /\
     row_summary row = JStr "Crash recovery" /\
     row_details row = JStr "Uptime: 3600") /\
  (exists row,
     render_row sample_StringToNumber sample_Date_parse 90000 restart_without_uptime
       = Normal row /\
     row_badge row = Some ("RESTART", secondary) /\
     row_summary row = JStr "Crash recovery" /\
     row_details row = JStr "Triggered by scaler").
Proof.
  split.
  - destruct (render_row_restart sample_StringToNumber sample_Date_parse 90000
                restart_with_uptime
                (list_to_map [("reason", JStr "Crash recovery");
                              ("previousUptime", JNum (Num 3600))]) "3600"
                eq_refl eq_refl
                (fun _ => conj (safe_integer_small 3600 ltac:(simpl; lia)) eq_refl))
      as (row & Hrow & Hbadge & Hsum & Hdet).
    exists row. repeat split; assumption.
  - destruct (render_row_restart sample_StringToNumber sample_Date_parse 90000
                restart_without_uptime
                (list_to_map [("reason", JStr "Crash recovery")]) ""
                eq_refl eq_refl ltac:(discriminate))
      as (row & Hrow & Hbadge & Hsum & Hdet).
    exists row. repeat split; assumption.
Defined.

(** ** Badges and icons *)


Lemma badge_variant_plus (x : string) : badge_variant (String "+" x) = success.
Proof. reflexivity. Qed.






(** X12.  For a scaling operation the icon and the badge agree: whenever
    a badge is shown, the icon is the rising trend and the badge starts
    with "+", or the icon is the falling trend and the badge starts with
    "-".  Both are read from [direction] alone. *)
Theorem scaling_icon_matches_badge (StringToNumber : string -> number)
    (activity : Activity) (d : ActivityDetails) (text : string) :
  activityType activity = "SCALING_OPERATION" ->
  getActivityDetails StringToNumber activity = Normal d ->
  badge d = JStr text -> text <> "" ->
  (getActivityIcon activity = TrendingUp /\ exists rest, text = String "+" rest) \/
  (getActivityIcon activity = TrendingDown /\ exists rest, text = String "-" rest).
Proof.
  intros Htype Hd Hbadge Htext.
  unfold getActivityDetails in Hd. unfold getActivityIcon, metadata_direction.
  rewrite Htype in *. cbn [String.eqb Ascii.eqb Bool.eqb].
  destruct (metadata activity) as [m|].
  - destruct (details_switch StringToNumber "SCALING_OPERATION" m) as [d'|e] eqn:Hsw;
      cbn [try_catch] in Hd; injection Hd as <-.
    + destruct (details_switch_scaling_badge _ m d' Hsw) as [magnitude Hsign].
      rewrite Hsign in Hbadge. injection Hbadge as <-.
      destruct (strict_eq_str (field m "direction") "up").
      * left. split; [reflexivity|]. eexists. reflexivity.
      * right. split; [reflexivity|]. eexists. reflexivity.
    + cbn in Hbadge. injection Hbadge as <-. contradiction.
  - injection Hd as <-. discriminate Hbadge.
Qed.

Lemma scaling_icon_matches_badge_witness :
  (getActivityIcon scaling_down_3_to_5 = TrendingUp /\ exists rest, "-2" = String "+" rest) \/
  (getActivityIcon scaling_down_3_to_5 = TrendingDown /\ exists rest, "-2" = String "-" rest).
Proof.
  apply (scaling_icon_matches_badge sample_StringToNumber scaling_down_3_to_5
           {| summary := JStr "3 → 5 servers";
              details := JStr "Low utilization";
              badge := JStr "-2" |} "-2");
    [reflexivity | reflexivity | reflexivity | discriminate].
Defined.


(** ** Navigation *)

Lemma filter_length_all {A} (f : A -> bool) (l : list A) :
  (List.length (List.filter f l) <= List.length l)%nat /\
  (List.length (List.filter f l) = List.length l <-> List.filter f l = l).
Proof.
  induction l as [|a l [IHle IHeq]]; [simpl; split; [lia | tauto]|].
  simpl. destruct (f a); simpl.
  - split; [lia|]. split.
    + intros H. f_equal. apply IHeq. lia.
    + intros H. injection H as H. f_equal. apply IHeq. exact H.
  - split; [lia|]. split; [lia|].
    intros H. apply (f_equal (@List.length A)) in H. simpl in H. lia.
Qed.

Lemma ActivityPage_pagination (StringToNumber Date_parse : string -> number)
    (now currentPage : Z) (isPending : bool) (data : option (list Activity))
    (view : View) :
  ActivityPage StringToNumber Date_parse now currentPage isPending data = Normal view ->
  view_pagination view =
    if negb isPending && Nat.ltb 0 (List.length (visible_activities data))
    then Some {| page_label := currentPage;
                 previous_disabled := negb (hasPrevPage currentPage);
                 next_disabled := negb (hasNextPage data) |}
    else None.
Proof.
  unfold ActivityPage. intros H.
  destruct (if isPending then Normal (Skeletons 10)
            else if Nat.eqb (List.length (visible_activities data)) 0
                 then Normal NoActivityFound
                 else bind (map_completion (render_row StringToNumber Date_parse now)
                              (visible_activities data))
                        (fun rows => Normal (Rows rows))) as [b|e];
    [|discriminate].
  cbn [bind] in H. injection H as <-. reflexivity.
Qed.

(** X14.  Navigation never leaves the pages: from any rendered view, a
    click on Previous or Next keeps the current page at 1 or above, and on
    page 1 a click on Previous changes nothing. *)
Theorem on_click_keeps_page_positive (StringToNumber Date_parse : string -> number)
    (now currentPage : Z) (isPending : bool) (data : option (list Activity))
    (view : View) (c : Click) :
  ActivityPage StringToNumber Date_parse now currentPage isPending data = Normal view ->
  1 <= currentPage ->
  1 <= on_click view currentPage c /\
  (currentPage = 1 -> on_click view currentPage ClickPrevious = 1).
Proof.
  intros Hview Hpage. apply ActivityPage_pagination in Hview.
  unfold on_click. rewrite Hview.
  destruct (negb isPending && Nat.ltb 0 (List.length (visible_activities data)));
    cbn [previous_disabled next_disabled]; [|split; [lia | auto]].
  unfold hasPrevPage. split.
  - destruct c.
    + destruct (Z.ltb_spec 1 currentPage); cbn [negb]; lia.
    + destruct (negb (hasNextPage data)); lia.
  - intros ->. reflexivity.
Qed.

(** Page 2 of a full page, where the bar is rendered with Previous
    enabled, and page 1 of it, where Previous is rendered disabled. *)
Lemma on_click_keeps_page_positive_witness :
  (exists view bar,
     ActivityPage sample_StringToNumber sample_Date_parse 90000 2 false (Some full_page)
       = Normal view /\
     view_pagination view = Some bar /\
     previous_disabled bar = false /\
     1 <= on_click view 2 ClickPrevious) /\
  (exists view bar,
     ActivityPage sample_StringToNumber sample_Date_parse 90000 1 false (Some full_page)
       = Normal view /\
     view_pagination view = Some bar /\
     previous_disabled bar = true /\
     on_click view 1 ClickPrevious = 1).
Proof.
  split.
  - destruct (ActivityPage_normal sample_StringToNumber sample_Date_parse 90000 2 false
                (Some full_page)) as (view & Hview & _).
    exists view, {| page_label := 2; previous_disabled := false; next_disabled := false |}.
    split; [exact Hview|].
    split; [rewrite (ActivityPage_pagination _ _ _ _ _ _ _ Hview); reflexivity|].
    split; [reflexivity|].
    assert (Hpage : 1 <= 2) by lia.
    exact (proj1 (on_click_keeps_page_positive sample_StringToNumber sample_Date_parse
                    90000 2 false (Some full_page) view ClickPrevious Hview Hpage)).
  - destruct (ActivityPage_normal sample_StringToNumber sample_Date_parse 90000 1 false
                (Some full_page)) as (view & Hview & _).
    exists view, {| page_label := 1; previous_disabled := true; next_disabled := false |}.
    split; [exact Hview|].
    split; [rewrite (ActivityPage_pagination _ _ _ _ _ _ _ Hview); reflexivity|].
    split; [reflexivity|].
    assert (Hpage : 1 <= 1) by lia.
    exact (proj2 (on_click_keeps_page_positive sample_StringToNumber sample_Date_parse
                    90000 1 false (Some full_page) view ClickPrevious Hview Hpage)
             eq_refl).
Defined.

(** X15.  A click on Next moves to the following page exactly when
    loading has finished and 20 activities are visible; the query for
    that page then starts where this one ended (its offset is 20 more).
    In every other state the click changes nothing. *)
Theorem on_click_next (StringToNumber Date_parse : string -> number)
    (now currentPage : Z) (isPending : bool) (data : option (list Activity))
    (view : View) :
  ActivityPage StringToNumber Date_parse now currentPage isPending data = Normal view ->
  (isPending = false /\ List.length (visible_activities data) = 20%nat ->
     on_click view currentPage ClickNext = currentPage + 1 /\
     offset (query_input (on_click view currentPage ClickNext))
       = offset (query_input currentPage) + limit (query_input currentPage)) /\
  (isPending = true \/ List.length (visible_activities data) <> 20%nat ->
     on_click view currentPage ClickNext = currentPage).
Proof.
  intros Hview. apply ActivityPage_pagination in Hview.
  unfold on_click. rewrite Hview. split.
  - intros [-> Hlen].
    assert (Hnext : hasNextPage data = true) by (apply hasNextPage_iff; exact Hlen).
    rewrite Hlen, Hnext. cbn.
    split; [reflexivity|]. unfold ITEMS_PER_PAGE. lia.
  - intros [-> | Hlen]; [reflexivity|].
    destruct (negb isPending && Nat.ltb 0 (List.length (visible_activities data)));
      [|reflexivity].
    cbn [next_disabled].
    destruct (hasNextPage data) eqn:Hnext; [|reflexivity].
    apply hasNextPage_iff in Hnext. contradiction.
Qed.

Lemma on_click_next_witness :
  exists view,
    ActivityPage sample_StringToNumber sample_Date_parse 90000 1 false (Some full_page)
      = Normal view /\
    on_click view 1 ClickNext = 2 /\
    offset (query_input (on_click view 1 ClickNext)) = 20.
Proof.
  destruct (ActivityPage_normal sample_StringToNumber sample_Date_parse 90000 1 false
              (Some full_page)) as (view & Hview & _).
  exists view. split; [exact Hview|].
  destruct (on_click_next sample_StringToNumber sample_Date_parse 90000 1 false
              (Some full_page) view Hview) as [Hmove _].
  destruct (Hmove (conj eq_refl eq_refl)) as [Hpage _].
  rewrite Hpage. split; reflexivity.
Defined.

(** X16.  Once loading has finished, a page with at least one visible
    activity shows one row per visible activity and the pagination bar:
    the label is the current page, Previous is disabled exactly on page 1
    and below, and Next is disabled exactly when the number of visible
    activities differs from 20. *)
Theorem populated_page_has_pagination (StringToNumber Date_parse : string -> number)
    (now currentPage : Z) (data : option (list Activity)) :
  visible_activities data <> [] ->
  exists rows bar,
    ActivityPage StringToNumber Date_parse now currentPage false data
      = Normal {| view_body := Rows rows; view_pagination := Some bar |} /\
    List.length rows = List.length (visible_activities data) /\
    page_label bar = currentPage /\
    (previous_disabled bar = true <-> currentPage <= 1) /\
    (next_disabled bar = true <-> List.length (visible_activities data) <> 20%nat).
Proof.
  intros Hne.
  destruct (render_rows_normal StringToNumber Date_parse now (visible_activities data))
    as (rows & Hrows & Hmap).
  assert (Hpos : (0 < List.length (visible_activities data))%nat).
  { destruct (visible_activities data); [contradiction | simpl; lia]. }
  assert (E1 : Nat.eqb (List.length (visible_activities data)) 0 = false)
    by (apply Nat.eqb_neq; lia).
  assert (E2 : Nat.ltb 0 (List.length (visible_activities data)) = true)
    by (apply Nat.ltb_lt; lia).
  unfold ActivityPage. rewrite E1, E2, Hrows. cbn [negb andb bind].
  eexists. eexists. split; [reflexivity|].
  cbn [page_label previous_disabled next_disabled].
  split; [rewrite <- Hmap; symmetry; apply List.length_map|].
  split; [reflexivity|]. split.
  - unfold hasPrevPage. destruct (Z.ltb_spec 1 currentPage); cbn [negb];
      split; (lia || discriminate || reflexivity).
  - destruct (hasNextPage data) eqn:Hnext; cbn [negb].
    + apply hasNextPage_iff in Hnext.
      split; [discriminate | intros Hlen; exfalso; exact (Hlen Hnext)].
    + split; [|reflexivity]. intros _ Hlen.
      apply hasNextPage_iff in Hlen. congruence.
Qed.

Lemma populated_page_has_pagination_witness :
  exists rows bar,
    ActivityPage sample_StringToNumber sample_Date_parse 90000 2 false (Some full_page)
      = Normal {| view_body := Rows rows; view_pagination := Some bar |} /\
    List.length rows = List.length (visible_activities (Some full_page)) /\
    page_label bar = 2 /\
    (previous_disabled bar = true <-> 2 <= 1) /\
    (next_disabled bar = true
     <-> List.length (visible_activities (Some full_page)) <> 20%nat).
Proof.
  apply (populated_page_has_pagination sample_StringToNumber sample_Date_parse 90000 2
           (Some full_page)).
  discriminate.
Defined.

(** X17.  When the API returned no more entries than the requested 20,
    Next is enabled exactly when the page is full and holds no backup
    operation; a short page, or no data at all, always disables it. *)
Theorem hasNextPage_within_limit (data : list Activity) :
  (List.length data <= 20)%nat ->
  (hasNextPage (Some data) = true <->
     List.length data = 20%nat /\
     Forall (fun a => activityType a <> "BACKUP_OPERATION") data) /\
  ((List.length data < 20)%nat -> hasNextPage (Some data) = false) /\
  hasNextPage None = false.
Proof.
  intros Hlimit.
  pose proof (filter_length_all (fun a => negb (is_backup a)) data) as [Hle Heq].
  assert (Hiff : hasNextPage (Some data) = true <->
                 List.length data = 20%nat /\
                 Forall (fun a => activityType a <> "BACKUP_OPERATION") data).
  { rewrite hasNextPage_iff. unfold visible_activities.
    change (default [] (Some data)) with data.
    split.
    - intros Hlen. assert (Hfull : List.length data = 20%nat) by lia.
      split; [exact Hfull|].
      assert (Hsame : List.filter (fun a => negb (is_backup a)) data = data)
        by (apply Heq; lia).
      apply List.Forall_forall. intros a Hin.
      apply (visible_not_backup (Some data)). unfold visible_activities.
      change (default [] (Some data)) with data. rewrite Hsame. exact Hin.
    - intros [Hfull Hall]. rewrite <- Hfull. apply Heq.
      apply List.forallb_filter_id. apply List.forallb_forall. intros a Hin.
      rewrite List.Forall_forall in Hall. specialize (Hall a Hin).
      unfold is_backup.
      destruct (String.eqb_spec (activityType a) "BACKUP_OPERATION");
        [contradiction | reflexivity]. }
  split; [exact Hiff|]. split; [|reflexivity].
  intros Hshort. apply not_true_is_false. intros E.
  apply Hiff in E. lia.
Qed.

Lemma hasNextPage_within_limit_witness :
  (hasNextPage (Some full_page) = true <->
     List.length full_page = 20%nat /\
     Forall (fun a => activityType a <> "BACKUP_OPERATION") full_page) /\
  ((List.length full_page < 20)%nat -> hasNextPage (Some full_page) = false) /\
  hasNextPage None = false.
Proof. apply (hasNextPage_within_limit full_page). simpl. lia. Defined.

(** ** Rows, groups and titles *)



Lemma find_some_first {A} (f : A -> bool) (pre post : list A) (g : A) :
  Forall (fun x => f x = false) pre -> f g = true ->
  List.find f (pre ++ g :: post)%list = Some g.
Proof.
  intros Hpre Hg. induction Hpre as [|x pre Hx _ IH]; simpl.
  - rewrite Hg. reflexivity.
  - rewrite Hx. exact IH.
Qed.

Lemma getGroupInternalName_nonempty (groupsData : option (list Group))
    (display : string) :
  display <> "" -> getGroupInternalName groupsData display <> "".
Proof.
  intros Hd. unfold getGroupInternalName.
  destruct (List.find _ (default [] groupsData)) as [g|]; [|exact Hd].
  destruct (String.eqb_spec (name g) ""); cbn [negb]; assumption.
Qed.

(** X19.  [getGroupInternalName] never fails and only ever answers with
    its argument or with the non-empty name of a listed group whose
    display name or name is the argument.  With no group list, or no
    group that matches, it answers with the argument unchanged, and a
    non-empty argument never resolves to the empty string. *)
Theorem getGroupInternalName_result (groupsData : option (list Group))
    (display : string) :
  (getGroupInternalName groupsData display = display \/
   exists g, In g (default [] groupsData) /\
             (displayName g = display \/ name g = display) /\
             name g <> "" /\
             getGroupInternalName groupsData display = name g) /\
  (Forall (fun g => displayName g <> display /\ name g <> display)
          (default [] groupsData) ->
   getGroupInternalName groupsData display = display) /\
  (display <> "" -> getGroupInternalName groupsData display <> "").
Proof.
  unfold getGroupInternalName.
  destruct (List.find _ (default [] groupsData)) as [g|] eqn:Hfind.
  - apply List.find_some in Hfind. destruct Hfind as [Hin Hmatch].
    apply orb_prop in Hmatch. rewrite !String.eqb_eq in Hmatch.
    destruct (String.eqb_spec (name g) "") as [Hempty|Hname]; cbn [negb].
    + split; [left; reflexivity|]. split; [reflexivity | auto].
    + split; [right; exists g; auto|]. split; [|auto].
      intros Hnone. rewrite List.Forall_forall in Hnone.
      destruct (Hnone g Hin) as [Hd Hn]. destruct Hmatch; contradiction.
  - split; [left; reflexivity|]. split; [reflexivity | auto].
Qed.

(** X20.  The first match wins: when a group with a non-empty name
    matches the argument by display name or by name and no group before
    it in the list does, the answer is that group's name, whatever groups
    follow. *)
Theorem getGroupInternalName_first_match (pre post : list Group) (g : Group)
    (display : string) :
  Forall (fun x => displayName x <> display /\ name x <> display) pre ->
  displayName g = display \/ name g = display ->
  name g <> "" ->
  getGroupInternalName (Some (pre ++ g :: post)%list) display = name g.
Proof.
  intros Hpre Hmatch Hname. unfold getGroupInternalName.
  change (default [] (Some (pre ++ g :: post)%list)) with (pre ++ g :: post)%list.
  rewrite find_some_first.
  - destruct (String.eqb_spec (name g) ""); [contradiction | reflexivity].
  - apply List.Forall_forall. intros x Hin.
    rewrite List.Forall_forall in Hpre. destruct (Hpre x Hin) as [Hd Hn].
    apply orb_false_intro; apply String.eqb_neq; assumption.
  - apply orb_true_intro. rewrite !String.eqb_eq. exact Hmatch.
Qed.

Lemma getGroupInternalName_first_match_witness :
  getGroupInternalName (Some sample_groups) "Survival" = "survival".
Proof.
  apply (getGroupInternalName_first_match
           [ {| name := "lobby"; displayName := "Lobby" |} ] []
           {| name := "survival"; displayName := "Survival" |} "Survival").
  - repeat constructor; discriminate.
  - left. reflexivity.
  - discriminate.
Defined.

(** X21.  The internal group name of a row exists exactly when the
    activity has a non-empty [groupName], and is then never empty, so the
    colour lookup that is guarded by it always takes place for such an
    activity. *)
Theorem internalGroupName_defined (groupsData : option (list Group))
    (activity : Activity) :
  (internalGroupName groupsData activity = None <->
     groupName activity = None \/ groupName activity = Some "") /\
  (forall n, internalGroupName groupsData activity = Some n -> n <> "").
Proof.
  unfold internalGroupName. destruct (groupName activity) as [g|].
  - destruct (String.eqb_spec g "") as [->|Hg]; cbn [negb].
    + split; [split; auto | discriminate].
    + split.
      * split; [discriminate|]. intros [H|H]; [discriminate | congruence].
      * intros n Hn. injection Hn as <-.
        apply getGroupInternalName_nonempty. exact Hg.
  - split; [split; auto | discriminate].
Qed.

Lemma upper_char_facts (c : ascii) :
  is_upper c = true ->
  Ascii.eqb c "_" = false /\
  is_word_char (to_lower c) = true /\
  to_upper (to_lower c) = c /\
  (N_of_ascii c <? 128)%N = true.
Proof.
  destruct c as [b0 b1 b2 b3 b4 b5 b6 b7].
  destruct b0, b1, b2, b3, b4, b5, b6, b7; intros H;
    try discriminate H; repeat split; reflexivity.
Qed.

Lemma enum_spaced_is_ascii (t : string) :
  is_enum_name t = true -> is_ascii_text (replace_all_char "_" " " t) = true.
Proof.
  induction t as [|c t IH]; [reflexivity|].
  cbn [is_enum_name replace_all_char is_ascii_text]. intros H.
  apply andb_prop in H. destruct H as [Hc Ht]. rewrite (IH Ht), andb_true_r.
  destruct (Ascii.eqb c "_"); [reflexivity|].
  rewrite orb_false_r in Hc. apply upper_char_facts in Hc. tauto.
Qed.

Lemma enum_title_scan (t : string) (start : bool) :
  is_enum_name t = true ->
  upper_word_starts (negb start) (ascii_lower_case (replace_all_char "_" " " t))
  = enum_title start t.
Proof.
  revert start. induction t as [|c t IH]; intros start H; [reflexivity|].
  cbn [is_enum_name] in H. apply andb_prop in H. destruct H as [Hc Ht].
  cbn [replace_all_char ascii_lower_case upper_word_starts enum_title].
  destruct (Ascii.eqb c "_") eqn:Hu.
  - change (to_lower " ") with " "%char.
    change (is_word_char " ") with false. cbn [andb].
    rewrite <- (IH true Ht). reflexivity.
  - rewrite orb_false_r in Hc.
    destruct (upper_char_facts c Hc) as (_ & Hword & Hround & _).
    rewrite Hword, negb_involutive, Hround. cbn [andb].
    rewrite <- (IH false Ht). reflexivity.
Qed.

(** X22.  The title of a row.  For an activity type in the form the API
    sends, upper-case letters and underscores, and a [toLowerCase] that
    is the ASCII one on ASCII text, the title has a space for every
    underscore, keeps the letter at the start and after each underscore,
    and has every other letter in lower case. *)
Theorem activity_title_enum (toLowerCase : string -> string) (type : string) :
  (forall s, is_ascii_text s = true -> toLowerCase s = ascii_lower_case s) ->
  is_enum_name type = true ->
  activity_title toLowerCase type = enum_title true type.
Proof.
  intros Hlower Henum. unfold activity_title, capitalize_words.
  rewrite Hlower by (apply enum_spaced_is_ascii; exact Henum).
  apply (enum_title_scan type true Henum).
Qed.

Lemma activity_title_enum_witness :
  activity_title ascii_lower_case "SCALING_OPERATION" = "Scaling Operation".
Proof.
  apply (activity_title_enum ascii_lower_case "SCALING_OPERATION").
  - intros s _. reflexivity.
  - reflexivity.
Defined.

(** ** More of the presenter and of navigation *)

Lemma or_else_falsy (v w : value) : truthy v = false -> or_else v w = w.
Proof. unfold or_else. intros ->. reflexivity. Qed.

(** X23.  The scaling branch defaults its counts: when [servers_before]
    and [servers_after] are absent or otherwise falsy (null, 0, the empty
    string, false, NaN), the summary is "0 → 0 servers" and the badge is
    the direction's sign followed by 0. *)
Theorem scaling_counts_default_to_zero (StringToNumber : string -> number)
    (activity : Activity) (m : gmap string value) (r : string) :
  activityType activity = "SCALING_OPERATION" ->
  metadata activity = Some m ->
  truthy (field m "servers_before") = false ->
  truthy (field m "servers_after") = false ->
  reason_text (field m "trigger_reason") r ->
  exists d,
    getActivityDetails StringToNumber activity = Normal d /\
    summary d = JStr "0 → 0 servers" /\
    badge d = JStr ((if strict_eq_str (field m "direction") "up" then "+" else "-")
                    ++ "0").
Proof.
  intros Htype Hmeta Hb Ha Hr. unfold getActivityDetails.
  rewrite Hmeta, Htype, details_switch_scaling.
  rewrite (formatTriggerReason_text _ _ Hr).
  rewrite (or_else_falsy _ _ Hb), (or_else_falsy _ _ Ha).
  cbn [bind try_catch]. eexists. split; [reflexivity|]. split; reflexivity.
Qed.

Lemma scaling_counts_default_to_zero_witness :
  exists d,
    getActivityDetails sample_StringToNumber
      (sample_activity "SCALING_OPERATION" [("servers_before", JNull)]) = Normal d /\
    summary d = JStr "0 → 0 servers" /\
    badge d = JStr "-0".
Proof.
  destruct (scaling_counts_default_to_zero sample_StringToNumber
              (sample_activity "SCALING_OPERATION" [("servers_before", JNull)])
              (list_to_map [("servers_before", JNull)]) ""
              eq_refl eq_refl eq_refl eq_refl (or_intror (conj eq_refl eq_refl)))
    as (d & Hd & Hsummary & Hbadge).
  exists d. split; [exact Hd|]. split; [exact Hsummary|].
  rewrite Hbadge. reflexivity.
Defined.

(** X24.  A click on Previous moves to the page before exactly when
    loading has finished, at least one activity is visible and the
    current page is above 1; the query for that page starts 20 entries
    earlier.  In every other state the click changes nothing. *)
Theorem on_click_previous (StringToNumber Date_parse : string -> number)
    (now currentPage : Z) (isPending : bool) (data : option (list Activity))
    (view : View) :
  ActivityPage StringToNumber Date_parse now currentPage isPending data = Normal view ->
  (isPending = false /\ visible_activities data <> [] /\ 1 < currentPage ->
     on_click view currentPage ClickPrevious = currentPage - 1 /\
     offset (query_input (on_click view currentPage ClickPrevious))
       = offset (query_input currentPage) - limit (query_input currentPage)) /\
  (isPending = true \/ visible_activities data = [] \/ currentPage <= 1 ->
     on_click view currentPage ClickPrevious = currentPage).
Proof.
  intros Hview. apply ActivityPage_pagination in Hview.
  unfold on_click. rewrite Hview. unfold hasPrevPage. split.
  - intros (-> & Hne & Hpage).
    destruct (visible_activities data) as [|a l]; [contradiction|].
    cbn [List.length Nat.ltb Nat.leb negb andb previous_disabled].
    destruct (Z.ltb_spec 1 currentPage); [|lia]. cbn [negb].
    split; [reflexivity|]. unfold query_input, ITEMS_PER_PAGE. cbn [offset limit]. lia.
  - intros [-> | [Hempty | Hpage]]; [reflexivity | rewrite Hempty, andb_false_r; reflexivity |].
    destruct (negb isPending && Nat.ltb 0 (List.length (visible_activities data)));
      [|reflexivity].
    cbn [previous_disabled].
    destruct (Z.ltb_spec 1 currentPage); [lia | reflexivity].
Qed.

Lemma on_click_previous_witness :
  exists view,
    ActivityPage sample_StringToNumber sample_Date_parse 90000 2 false (Some full_page)
      = Normal view /\
    on_click view 2 ClickPrevious = 1 /\
    offset (query_input (on_click view 2 ClickPrevious)) = 0.
Proof.
  destruct (ActivityPage_normal sample_StringToNumber sample_Date_parse 90000 2 false
              (Some full_page)) as (view & Hview & _).
  exists view. split; [exact Hview|].
  destruct (on_click_previous sample_StringToNumber sample_Date_parse 90000 2 false
              (Some full_page) view Hview) as [Hmove _].
  assert (Hvisible : visible_activities (Some full_page) <> []) by discriminate.
  assert (Habove : 1 < 2) by lia.
  destruct (Hmove (conj eq_refl (conj Hvisible Habove))) as [Hpage _].
  rewrite Hpage. split; reflexivity.
Defined.

(** X25.  Going forward and back.  After Next was clicked on a full page
    [p], the page [p + 1] leads back to [p] with Previous when it shows
    at least one activity; when nothing is visible on it (the data ran
    out exactly at the page end, or the page holds backup operations
    only), neither button is there and the page stays at [p + 1]. *)
Theorem next_then_previous (StringToNumber Date_parse : string -> number)
    (now p : Z) (data data' : option (list Activity)) (view view' : View) :
  1 <= p ->
  List.length (visible_activities data) = 20%nat ->
  ActivityPage StringToNumber Date_parse now p false data = Normal view ->
  ActivityPage StringToNumber Date_parse now (p + 1) false data' = Normal view' ->
  on_click view p ClickNext = p + 1 /\
  (visible_activities data' <> [] -> on_click view' (p + 1) ClickPrevious = p) /\
  (visible_activities data' = [] -> forall c, on_click view' (p + 1) c = p + 1).
Proof.
  intros Hp Hfull Hview Hview'.
  assert (Hnext : on_click view p ClickNext = p + 1).
  { apply ActivityPage_pagination in Hview. unfold on_click. rewrite Hview, Hfull.
    assert (Hn : hasNextPage data = true) by (apply hasNextPage_iff; exact Hfull).
    rewrite Hn. reflexivity. }
  apply ActivityPage_pagination in Hview'.
  split; [exact Hnext|]. unfold on_click. rewrite Hview'. split.
  - intros Hne. destruct (visible_activities data') as [|a l]; [contradiction|].
    cbn [List.length Nat.ltb Nat.leb negb andb previous_disabled].
    unfold hasPrevPage. destruct (Z.ltb_spec 1 (p + 1)); [|lia]. cbn [negb]. lia.
  - intros Hempty c. rewrite Hempty. reflexivity.
Qed.

Lemma next_then_previous_witness :
  exists view view',
    ActivityPage sample_StringToNumber sample_Date_parse 90000 1 false (Some full_page)
      = Normal view /\
    ActivityPage sample_StringToNumber sample_Date_parse 90000 2 false
      (Some backup_only_page) = Normal view' /\
    on_click view 1 ClickNext = 2 /\
    forall c, on_click view' 2 c = 2.
Proof.
  destruct (ActivityPage_normal sample_StringToNumber sample_Date_parse 90000 1 false
              (Some full_page)) as (view & Hview & _).
  destruct (ActivityPage_normal sample_StringToNumber sample_Date_parse 90000 2 false
              (Some backup_only_page)) as (view' & Hview' & _).
  exists view, view'. split; [exact Hview|]. split; [exact Hview'|].
  destruct (next_then_previous sample_StringToNumber sample_Date_parse 90000 1
              (Some full_page) (Some backup_only_page) view view'
              ltac:(lia) eq_refl Hview Hview') as (Hnext & _ & Hstuck).
  split; [exact Hnext | exact (Hstuck eq_refl)].
Defined.
